(** * GPy.models.ss_gplvm: the Spike-and-Slab GPLVM model coordinator

    A shallow embedding of [GPy/models/ss_gplvm.py] (class [SSGPLVM]) and
    the properties its specification states about it.

    Conventions.
    - A numpy [float64] is a primitive binary64 [float]; arithmetic and
      comparisons are the IEEE ones the kernel computes.
    - A two-dimensional [ndarray] carries its dtype and its shape next
      to its rows, so that an array with no row still has a column
      count, as in numpy. An integer array holds each entry as the
      binary64 number of the same value, and a store into it truncates;
      integers beyond 2^53 are outside the model.
    - A Python exception is the [Raise] outcome of the [res] monad.
    - Draws of [np.random] are arguments of the functions that use them.
    - Classes and functions imported from other modules of GPy
      ([SparseGP], the kernel, the variational prior, the inference
      engines, the MPI helpers) are the fields of the [Collaborators]
      class: this file fixes nothing about them but their types. *)

From Stdlib Require Import ZArith List Floats Uint63.
From stdpp Require Import gmap strings list fin_maps.

Set Warnings "-inexact-float".

(** ** Exceptions *)

Inductive exn : Type :=
  | ValueError
  | IndexError
  | AssertionError
  | AttributeError
  | KeyError (key : string)
  | Exception (msg : string).

Inductive res (A : Type) : Type :=
  | Ok (a : A)
  | Raise (e : exn).

Arguments Ok {A} a.
Arguments Raise {A} e.

#[global] Instance res_ret : MRet res := fun _ a => Ok a.

#[global] Instance res_bind : MBind res :=
  fun _ _ f m => match m with Ok a => f a | Raise e => Raise e end.

(** ** The part of numpy the constructor uses *)

Module Numpy.

Open Scope float_scope.

(** The element types told apart: [np.float64] and the integers. *)
Inductive scalar_type : Type := float64 | int64.

Record ndarray : Type := NDArray {
  dtype : scalar_type;
  shape : nat * nat;
  rows : list (list float)
}.

(** The smallest [int64], -2^63. *)
Definition int64_min : float :=
  Eval vm_compute in - (of_uint63 (Uint63.of_Z (2 ^ 62)) * 2).

(** The conversion of a binary64 number to [int64], towards zero.
    Outside the range of [int64] and on NaN the C conversion numpy uses
    is undefined; the model takes what x86-64 produces there, the
    smallest [int64]. No statement below depends on it. *)
Definition truncate (x : float) : float :=
  match Prim2SF x with
  | S754_zero _ => 0
  | S754_finite s m e =>
      let z := if (0 <=? e)%Z then Z.shiftl (Zpos m) e
               else Z.shiftr (Zpos m) (- e) in
      if (z =? 0)%Z then 0
      else if (z <? 2 ^ 63)%Z
           then let f := of_uint63 (Uint63.of_Z z) in if s then - f else f
           else int64_min
  | _ => int64_min
  end.

(** What a store into an array of the given dtype keeps of a value. *)
Definition astype (t : scalar_type) (x : float) : float :=
  match t with
  | float64 => x
  | int64 => truncate x
  end.

Definition cast_rows (t : scalar_type) (r : list (list float))
  : list (list float) :=
  match t with
  | float64 => r
  | int64 => map (map truncate) r
  end.

(** One right-hand side of an assignment or of an arithmetic
    operation: a Python scalar, a one-dimensional array, or a
    two-dimensional one. *)
Inductive operand : Type :=
  | Scalar (c : float)
  | Vector (v : list float)
  | Matrix (a : ndarray).

(** The [float64] array of shape [(n, m)] whose entry [(i, j)] is
    [f i j]. *)
Definition tabulate (n m : nat) (f : nat -> nat -> float) : ndarray :=
  NDArray float64 (n, m) (map (fun i => map (f i) (seq 0 m)) (seq 0 n)).

(** [np.empty(shape)]: an array of the given shape over whatever the
    allocator left in memory, [mem]. *)
Definition empty (sh : nat * nat) (mem : nat -> nat -> float) : ndarray :=
  tabulate sh.1 sh.2 mem.

(** [np.empty_like(a)]: the shape and the dtype of [a]. *)
Definition empty_like (a : ndarray) (mem : nat -> nat -> float) : ndarray :=
  NDArray (dtype a) (shape a)
    (cast_rows (dtype a) (rows (empty (shape a) mem))).

(** [np.random.randn(n, m)] over the draws [noise]. *)
Definition randn (noise : nat -> nat -> float) (n m : nat) : ndarray :=
  tabulate n m noise.

(** The array with [f] applied to every entry. *)
Definition map_entries (f : float -> float) (a : ndarray) : ndarray :=
  NDArray (dtype a) (shape a) (map (map f) (rows a)).

(** [c + a] and [c * a] for a Python float [c]: a [float64] array. *)
Definition scalar_add (c : float) (a : ndarray) : ndarray :=
  NDArray float64 (shape a) (map (map (fun x => c + x)) (rows a)).

Definition scalar_mul (c : float) (a : ndarray) : ndarray :=
  NDArray float64 (shape a) (map (map (fun x => c * x)) (rows a)).

(** *** Broadcasting

    An axis of length [s] fits an axis of length [d] when [s = d] or
    [s = 1]; in the second case its one entry is repeated. *)
Definition axis_fits (s d : nat) : bool := (s =? d)%nat || (s =? 1)%nat.

Definition stretch {A} (d : nat) (l : list A) : list A :=
  if (length l =? d)%nat then l
  else match l with
       | x :: _ => replicate d x
       | [] => []
       end.

Definition broadcast_to (sh : nat * nat) (src : operand)
  : res (list (list float)) :=
  match src with
  | Scalar c => Ok (replicate sh.1 (replicate sh.2 c))
  | Vector v =>
      if axis_fits (length v) sh.2
      then Ok (replicate sh.1 (stretch sh.2 v))
      else Raise ValueError
  | Matrix a =>
      if axis_fits (shape a).1 sh.1 && axis_fits (shape a).2 sh.2
      then Ok (stretch sh.1 (map (stretch sh.2) (rows a)))
      else Raise ValueError
  end.

(** [dst[:] = src]: the values are stored at the dtype of [dst]. *)
Definition setitem_all (dst : ndarray) (src : operand) : res ndarray :=
  r ← broadcast_to (shape dst) src;
  mret (NDArray (dtype dst) (shape dst) (cast_rows (dtype dst) r)).

(** [a[mask a] = c] for an elementwise test [mask]. *)
Definition setitem_mask (mask : float -> bool) (c : float) (a : ndarray)
  : ndarray :=
  map_entries (fun x => if mask x then astype (dtype a) c else x) a.

(** [a[:, j]] *)
Definition column (a : ndarray) (j : nat) : res (list float) :=
  if (j <? (shape a).2)%nat
  then match mapM (fun r : list float => r !! j) (rows a) with
       | Some c => Ok c
       | None => Raise IndexError
       end
  else Raise IndexError.

(** The array of the given dtype and shape with [c] stored in every
    entry, and the [float64] one. *)
Definition full_of (t : scalar_type) (sh : nat * nat) (c : float) : ndarray :=
  NDArray t sh (replicate sh.1 (replicate sh.2 (astype t c))).

Definition full (sh : nat * nat) (c : float) : ndarray :=
  NDArray float64 sh (replicate sh.1 (replicate sh.2 c)).

(** [np.ones(n)] and [v = np.empty(n); v[:] = c] *)
Definition ones (n : nat) : list float := replicate n 1.

Definition full1 (n : nat) (c : float) : list float := replicate n c.

(** [a[start:stop]] on the first axis. *)
Definition slice_rows (start stop : nat) (a : ndarray) : ndarray :=
  let r := take (stop - start) (drop start (rows a)) in
  NDArray (dtype a) (length r, (shape a).2) r.

(** Every entry of the array satisfies [P]. *)
Definition all_entries (P : float -> Prop) (a : ndarray) : Prop :=
  Forall (Forall P) (rows a).

End Numpy.

(** ** The broadcast channel of one MPI process

    A process sees the collective [Bcast(buf, root=0)] from one side: on
    rank 0 the buffer is sent, and the process records it in [sent]; on
    another rank the call blocks until the root's next broadcast arrives,
    which is the head of [inbox], and the buffer is overwritten with
    it. A process that is sent something else than the buffer it waits
    with never gets its broadcast: it stays blocked. *)

Module MPI.

Record Comm : Type := { rank : nat; size : nat }.

(** What a buffer holds: the one-element [int32] flag, or a parameter
    vector. *)
Inductive payload : Type :=
  | Signal (flag : Z)
  | Params (p : list float).

(** [np.int32(z)]: two's complement on 32 bits. *)
Definition int32 (z : Z) : Z := ((z + 2 ^ 31) mod 2 ^ 32 - 2 ^ 31)%Z.

(** The incoming broadcast is the one the receive buffer waits for when
    both hold the same kind of data and as many entries. *)
Definition fits (buf msg : payload) : bool :=
  match buf, msg with
  | Signal _, Signal _ => true
  | Params p, Params q => (length p =? length q)%nat
  | _, _ => false
  end.

End MPI.

Import Numpy MPI.

(** ** The data model *)

(** A parameter array of GPy with its gradient slot. *)
Record Param : Type := {
  values : ndarray;
  gradient : ndarray
}.

(** The variational posterior over the latent matrix. *)
Record SpikeAndSlabPosterior : Type := {
  mean : Param;
  variance : Param;
  binary_prob : Param
}.

(** The prior over the inclusion indicator. *)
Record SpikeAndSlabPrior : Type := {
  pi : list float;
  prior_group_spike_prob : bool
}.

(** What this file reads and writes of a kernel. *)
Record Kern : Type := {
  ARD : bool;
  lengthscale : list float;
  kern_group_spike_prob : bool
}.

(** The classes [parameters_changed] tells apart with [isinstance]; any
    other inference method is [OtherInference]. *)
Inductive InferenceMethod : Type :=
  | VarDTC_minibatch (mpi_comm : option Comm)
  | VarDTC_GPU
  | OtherInference (name : string).

Inductive Likelihood : Type :=
  | Gaussian
  | OtherLikelihood (name : string).

Inductive InitMethod : Type := PCA | random.

(** A gradient with respect to a sufficient statistic, of any rank. *)
Record tensor : Type := { dims : list nat; flat : list float }.

Record SSGPLVM : Type := {
  mpi_comm : option Comm;
  __IN_OPTIMIZATION__ : bool;
  group_spike : bool;
  init : InitMethod;
  variational_prior : SpikeAndSlabPrior;
  X : SpikeAndSlabPosterior;
  Y : ndarray;
  Z : ndarray;
  kern : Kern;
  likelihood : Likelihood;
  inference_method : InferenceMethod;
  name : string;
  grad_dict : gmap string tensor;
  _log_marginal_likelihood : float;
  param_array : list float;
  Y_local : option ndarray;
  X_local : option SpikeAndSlabPosterior;
  Y_range : option (nat * nat);
  Y_list : option (list nat)
}.

(** Attribute assignments [self.attr = v]. *)
Definition set_IN_OPTIMIZATION (b : bool) (m : SSGPLVM) : SSGPLVM :=
  {| mpi_comm := mpi_comm m; __IN_OPTIMIZATION__ := b;
     group_spike := group_spike m; init := init m;
     variational_prior := variational_prior m; X := X m; Y := Y m; Z := Z m;
     kern := kern m; likelihood := likelihood m;
     inference_method := inference_method m; name := name m;
     grad_dict := grad_dict m;
     _log_marginal_likelihood := _log_marginal_likelihood m;
     param_array := param_array m; Y_local := Y_local m;
     X_local := X_local m; Y_range := Y_range m; Y_list := Y_list m |}.

Definition set_log_marginal_likelihood (v : float) (m : SSGPLVM) : SSGPLVM :=
  {| mpi_comm := mpi_comm m; __IN_OPTIMIZATION__ := __IN_OPTIMIZATION__ m;
     group_spike := group_spike m; init := init m;
     variational_prior := variational_prior m; X := X m; Y := Y m; Z := Z m;
     kern := kern m; likelihood := likelihood m;
     inference_method := inference_method m; name := name m;
     grad_dict := grad_dict m;
     _log_marginal_likelihood := v;
     param_array := param_array m; Y_local := Y_local m;
     X_local := X_local m; Y_range := Y_range m; Y_list := Y_list m |}.

Definition set_X (q : SpikeAndSlabPosterior) (m : SSGPLVM) : SSGPLVM :=
  {| mpi_comm := mpi_comm m; __IN_OPTIMIZATION__ := __IN_OPTIMIZATION__ m;
     group_spike := group_spike m; init := init m;
     variational_prior := variational_prior m; X := q; Y := Y m; Z := Z m;
     kern := kern m; likelihood := likelihood m;
     inference_method := inference_method m; name := name m;
     grad_dict := grad_dict m;
     _log_marginal_likelihood := _log_marginal_likelihood m;
     param_array := param_array m; Y_local := Y_local m;
     X_local := X_local m; Y_range := Y_range m; Y_list := Y_list m |}.

Definition set_partition (yl : ndarray) (xl : SpikeAndSlabPosterior)
    (yr : nat * nat) (yls : list nat) (m : SSGPLVM) : SSGPLVM :=
  {| mpi_comm := mpi_comm m; __IN_OPTIMIZATION__ := __IN_OPTIMIZATION__ m;
     group_spike := group_spike m; init := init m;
     variational_prior := variational_prior m; X := X m; Y := Y m; Z := Z m;
     kern := kern m; likelihood := likelihood m;
     inference_method := inference_method m; name := name m;
     grad_dict := grad_dict m;
     _log_marginal_likelihood := _log_marginal_likelihood m;
     param_array := param_array m; Y_local := Some yl;
     X_local := Some xl; Y_range := Some yr; Y_list := Some yls |}.

(** ** One process: the model and its side of the broadcast channel *)

Record process : Type := {
  self : SSGPLVM;
  sent : list payload;
  inbox : list payload
}.

Inductive outcome (A : Type) : Type :=
  | Returned (a : A) (s : process)
  | Raised (e : exn) (s : process)
  | Blocked (s : process).

Arguments Returned {A} a s.
Arguments Raised {A} e s.
Arguments Blocked {A} s.

(** The state a call leaves behind, however it ends. *)
Definition final {A} (o : outcome A) : process :=
  match o with
  | Returned _ s | Raised _ s | Blocked s => s
  end.

Definition Proc (A : Type) : Type := process -> outcome A.

#[global] Instance Proc_ret : MRet Proc := fun _ a s => Returned a s.

#[global] Instance Proc_bind : MBind Proc :=
  fun _ _ f m s =>
    match m s with
    | Returned a s' => f a s'
    | Raised e s' => Raised e s'
    | Blocked s' => Blocked s'
    end.

Definition raise {A} (e : exn) : Proc A := fun s => Raised e s.

(** A call that never returns. *)
Definition never_returns {A} : Proc A := fun s => Blocked s.

Definition get_self : Proc SSGPLVM := fun s => Returned (self s) s.

Definition get_inbox : Proc (list payload) := fun s => Returned (inbox s) s.

Definition modify_self (f : SSGPLVM -> SSGPLVM) : Proc unit :=
  fun s => Returned tt {| self := f (self s); sent := sent s; inbox := inbox s |}.

(** A computation that can only raise, run inside a process. *)
Definition lift_res {A} (r : res A) : Proc A :=
  fun s => match r with Ok a => Returned a s | Raise e => Raised e s end.

(** [comm.Bcast(buf, root=0)]: the buffer after the call. Rank 0 sends
    its buffer; a follower waits for the next broadcast, and makes no
    progress where its buffer does not fit what was sent. *)
Definition Bcast (comm : Comm) (buf : payload) : Proc payload :=
  fun s =>
    if (rank comm =? 0)%nat
    then Returned buf {| self := self s; sent := sent s ++ [buf]; inbox := inbox s |}
    else match inbox s with
         | [] => Blocked s
         | msg :: rest =>
             if fits buf msg
             then Returned msg {| self := self s; sent := sent s; inbox := rest |}
             else Blocked s
         end.

(** The two buffers this file broadcasts. *)
Definition Bcast_int32 (comm : Comm) (flag : BinNums.Z) : Proc BinNums.Z :=
  buf ← Bcast comm (Signal flag);
  match buf with
  | Signal flag' => mret flag'
  | Params _ => never_returns
  end.

Definition Bcast_array (comm : Comm) (p : list float) : Proc (list float) :=
  buf ← Bcast comm (Params p);
  match buf with
  | Params p' => mret p'
  | Signal _ => never_returns
  end.

(** ** Python values of a pickled state *)

Inductive pyval : Type :=
  | PyNone
  | PyComm (comm : Comm)
  | PyArray (a : ndarray)
  | PyTuple (t : nat * nat)
  | PyObject (repr : string).

(** [d[k]] and [del d[k]] *)
Definition getitem {V} (d : gmap string V) (k : string) : res V :=
  match d !! k with
  | Some v => Ok v
  | None => Raise (KeyError k)
  end.

Definition delitem {V} (k : string) (d : gmap string V) : res (gmap string V) :=
  match d !! k with
  | Some _ => Ok (delete k d)
  | None => Raise (KeyError k)
  end.

(** ** The collaborators

    What [ss_gplvm.py] imports from the rest of GPy. The collaborators
    that work on the model return normally and leave the broadcast
    channel alone; [SparseGP.optimize] drives the optimizer, which sets
    the parameter vector through the model's own
    [_set_params_transformed], its argument here. *)

Class Collaborators : Type := {
  (** [util.initialization.initialize_latent(init, input_dim, Y)] *)
  initialize_latent : InitMethod -> nat -> ndarray -> ndarray * list float;
  (** [kern.RBF(input_dim, lengthscale=fracs, ARD=True)] *)
  RBF : nat -> list float -> Kern;
  (** [SparseGP.__init__(self, X, Y, Z, kernel, likelihood,
      inference_method, name)] and [add_parameter]: the base class keeps
      its arguments as attributes, and sets up the gradient dictionary,
      the evidence and the parameter array, which are its value here *)
  SparseGP_init :
    SpikeAndSlabPosterior -> ndarray -> ndarray -> Kern -> Likelihood ->
    InferenceMethod -> string -> gmap string tensor * float * list float;
  (** [util.mpi.divide_data(N, mpi_comm)] *)
  divide_data : nat -> Comm -> nat * nat * list nat;
  (** [param_array] is the memory behind every parameter: the model
      after the array was overwritten in place *)
  param_array_written : list float -> SSGPLVM -> SSGPLVM;
  (** [SparseGP.parameters_changed] *)
  SparseGP_parameters_changed : SSGPLVM -> SSGPLVM;
  (** [var_dtc_parallel.update_gradients(model, mpi_comm)] *)
  update_gradients : SSGPLVM -> option Comm -> SSGPLVM;
  (** [SpikeAndSlabPrior.KL_divergence(posterior)] *)
  KL_divergence : SpikeAndSlabPrior -> SpikeAndSlabPosterior -> float;
  (** for [update_gradients_KL] below: the gradient of the KL term
      with respect to the posterior's mean, variance and binary_prob, at
      the parameters' values *)
  KL_gradients : SpikeAndSlabPrior -> ndarray -> ndarray -> ndarray ->
                 ndarray * ndarray * ndarray;
  (** [kern.gradients_qX_expectations(variational_posterior, Z,
      dL_dpsi0, dL_dpsi1, dL_dpsi2)] *)
  gradients_qX_expectations :
    Kern -> SpikeAndSlabPosterior -> ndarray -> tensor -> tensor -> tensor ->
    ndarray * ndarray * ndarray;
  (** [kern.input_sensitivity()] *)
  kern_input_sensitivity : Kern -> list float;
  (** [SparseGP.__getstate__] *)
  SparseGP_getstate : SSGPLVM -> gmap string pyval;
  (** [SparseGP._get_params_transformed] and [_set_params_transformed] *)
  SparseGP_get_params_transformed : SSGPLVM -> list float;
  SparseGP_set_params_transformed : list float -> SSGPLVM -> SSGPLVM;
  (** [SparseGP.optimize] *)
  SparseGP_optimize : (list float -> Proc (list float)) -> Proc unit
}.

(** ** The variational classes *)

(** [Param(values)]: the gradient slot has the shape of the values. *)
Definition zeros (sh : nat * nat) : ndarray := full sh 0%float.

Definition new_Param (v : ndarray) : Param :=
  {| values := v; gradient := zeros (shape v) |}.

Definition set_gradient (g : ndarray) (p : Param) : Param :=
  {| values := values p; gradient := g |}.

(** [SpikeAndSlabPosterior(X, X_variance, gamma)] *)
Definition new_SpikeAndSlabPosterior (means variances gamma : ndarray)
  : SpikeAndSlabPosterior :=
  {| mean := new_Param means;
     variance := new_Param variances;
     binary_prob := new_Param gamma |}.

(** [X[start:stop]] *)
Definition slice_Param (start stop : nat) (p : Param) : Param :=
  {| values := slice_rows start stop (values p);
     gradient := slice_rows start stop (gradient p) |}.

Definition slice_posterior (start stop : nat) (q : SpikeAndSlabPosterior)
  : SpikeAndSlabPosterior :=
  {| mean := slice_Param start stop (mean q);
     variance := slice_Param start stop (variance q);
     binary_prob := slice_Param start stop (binary_prob q) |}.

(** [slot += g]: the sums are stored at the dtype of [slot]. *)
Definition iadd (slot g : ndarray) : res ndarray :=
  b ← broadcast_to (shape slot) (Matrix g);
  mret (NDArray (dtype slot) (shape slot)
          (cast_rows (dtype slot)
             (zip_with (zip_with PrimFloat.add) (rows slot) b))).

(** Modelled from the spec: [SpikeAndSlabPrior.update_gradients_KL] is
    not in [ss_gplvm.py]. It computes the gradient of the KL term with
    respect to each of the posterior's parameters and adds it into the
    posterior's existing gradient slots, in place. *)
Definition update_gradients_KL {gpy : Collaborators}
    (prior : SpikeAndSlabPrior) (q : SpikeAndSlabPosterior)
  : res SpikeAndSlabPosterior :=
  let '(dmean, dvariance, dgamma) :=
    KL_gradients prior (values (mean q)) (values (variance q))
                 (values (binary_prob q)) in
  gm ← iadd (gradient (mean q)) dmean;
  gv ← iadd (gradient (variance q)) dvariance;
  gb ← iadd (gradient (binary_prob q)) dgamma;
  mret {| mean := set_gradient gm (mean q);
          variance := set_gradient gv (variance q);
          binary_prob := set_gradient gb (binary_prob q) |}.

(** Every entry of the array added to itself. *)
Definition double (a : ndarray) : ndarray :=
  map_entries (fun x => (x + x)%float) a.

(** A slot as [np.zeros] leaves it: [float64] zeros. *)
Definition zero_slot (g : ndarray) : Prop :=
  dtype g = float64 /\ all_entries (eq 0%float) g.

(** The three gradient slots hold zeros. *)
Definition zeroed (q : SpikeAndSlabPosterior) : Prop :=
  zero_slot (gradient (mean q))
  /\ zero_slot (gradient (variance q))
  /\ zero_slot (gradient (binary_prob q)).

(** ** The class [SSGPLVM] *)

(** The arguments of the constructor. *)
Record init_args : Type := {
  arg_Y : ndarray;
  arg_input_dim : nat;
  arg_X : option ndarray;
  arg_X_variance : option ndarray;
  arg_init : InitMethod;
  arg_num_inducing : nat;
  arg_Z : option ndarray;
  arg_kernel : option Kern;
  arg_inference_method : option InferenceMethod;
  arg_likelihood : option Likelihood;
  arg_name : string;
  arg_group_spike : bool;
  arg_mpi_comm : option Comm
}.

(** [SSGPLVM(Y, input_dim, ...)] with every other argument at its
    default. *)
Definition default_args (Y0 : ndarray) (input_dim : nat) : init_args :=
  {| arg_Y := Y0; arg_input_dim := input_dim; arg_X := None;
     arg_X_variance := None; arg_init := PCA; arg_num_inducing := 10;
     arg_Z := None; arg_kernel := None; arg_inference_method := None;
     arg_likelihood := None; arg_name := "Spike-and-Slab GPLVM";
     arg_group_spike := false; arg_mpi_comm := None |}.

(** What one run of the constructor takes from [np.random] and from the
    allocator. *)
Record np_random : Type := {
  uniform : nat -> nat -> float;
  randn_draws : nat -> nat -> float;
  permutation : list (list float) -> list (list float);
  uninitialised : nat -> nat -> float
}.

Section Methods.

Context {gpy : Collaborators}.

Open Scope float_scope.

(** *** [__init__] *)

(** Lines 36-40: the initial latent means and the relevance
    fractions; [X == None] is the test for the missing argument. *)
Definition init_latent (a : init_args) : ndarray * list float :=
  match arg_X a with
  | None => initialize_latent (arg_init a) (arg_input_dim a) (arg_Y a)
  | Some X0 => (X0, ones (arg_input_dim a))
  end.

(** Lines 44-45 *)
Definition init_X_variance (a : init_args) (rnd : np_random) (X0 : ndarray)
  : ndarray :=
  match arg_X_variance a with
  | None => tabulate (shape X0).1 (shape X0).2 (uniform rnd)
  | Some v => v
  end.

(** Lines 47-48: the posterior probabilities of the binary variable,
    one half perturbed by a tenth of a standard normal draw. *)
Definition gamma_perturbed (X0 : ndarray) (input_dim : nat)
    (rnd : np_random) : res ndarray :=
  let gamma := empty_like X0 (uninitialised rnd) in
  setitem_all gamma
    (Matrix (scalar_add 0.5
               (scalar_mul 0.1
                  (randn (randn_draws rnd) (shape X0).1 input_dim)))).

(** Lines 49-50 *)
Definition gamma_clamped (gamma : ndarray) : ndarray :=
  let gamma := setitem_mask (fun g => 1 - 1e-9 <? g) (1 - 1e-9) gamma in
  setitem_mask (fun g => g <? 1e-9) 1e-9 gamma.

(** What lines 49-50 leave of any entry: it is neither above
    [1 - 1e-9] nor below [1e-9]. *)
Definition clamped (g : float) : Prop :=
  (1 - 1e-9 <? g) = false /\ (g <? 1e-9) = false.

(** The entry lies in [[1e-9, 1 - 1e-9]]. *)
Definition within_eps (g : float) : Prop :=
  (1e-9 <=? g) = true /\ (g <=? 1 - 1e-9) = true.

(** Lines 47-54 *)
Definition init_gamma (X0 : ndarray) (input_dim : nat) (rnd : np_random)
    (group_spike : bool) : res ndarray :=
  gamma ← gamma_perturbed X0 input_dim rnd;
  let gamma := gamma_clamped gamma in
  gamma ← setitem_all gamma (Scalar 0.5);
  if group_spike
  then c ← column gamma 0; setitem_all gamma (Vector c)
  else mret gamma.

(** Lines 56-58 *)
Definition init_Z (a : init_args) (rnd : np_random) (X0 : ndarray)
  : res ndarray :=
  let Zi := match arg_Z a with
            | None => slice_rows 0 (arg_num_inducing a)
                        (NDArray (dtype X0) (shape X0)
                           (permutation rnd (rows X0)))
            | Some Zi => Zi
            end in
  if ((shape Zi).2 =? (shape X0).2)%nat then Ok Zi else Raise AssertionError.

(** Lines 60-61 *)
Definition init_pi (input_dim : nat) : list float := full1 input_dim 0.5.

(** Lines 63-70: the defaults of the likelihood, the kernel and the
    inference method. *)
Definition init_likelihood (a : init_args) : Likelihood :=
  match arg_likelihood a with None => Gaussian | Some l => l end.

Definition init_kernel (a : init_args) (fracs : list float) : Kern :=
  match arg_kernel a with
  | None => RBF (arg_input_dim a) fracs
  | Some k => k
  end.

Definition init_inference_method (a : init_args) : InferenceMethod :=
  match arg_inference_method a with
  | None => VarDTC_minibatch (arg_mpi_comm a)
  | Some i => i
  end.

(** Lines 76-78 *)
Definition set_group_spike_prob (k : Kern) : Kern :=
  {| ARD := ARD k; lengthscale := lengthscale k;
     kern_group_spike_prob := true |}.

(** Lines 32-82: the model before the MPI session is set up. *)
Definition construct (a : init_args) (rnd : np_random) : res SSGPLVM :=
  let '(X0, fracs) := init_latent a in
  let X_variance := init_X_variance a rnd X0 in
  gamma ← init_gamma X0 (arg_input_dim a) rnd (arg_group_spike a);
  Zi ← init_Z a rnd X0;
  let pi0 := init_pi (arg_input_dim a) in
  let likelihood0 := init_likelihood a in
  let kernel := init_kernel a fracs in
  let inference_method0 := init_inference_method a in
  let q := new_SpikeAndSlabPosterior X0 X_variance gamma in
  let kernel := if arg_group_spike a then set_group_spike_prob kernel
                else kernel in
  let '(grad_dict0, evidence0, param_array0) :=
    SparseGP_init q (arg_Y a) Zi kernel likelihood0 inference_method0
                  (arg_name a) in
  mret {| mpi_comm := arg_mpi_comm a;
          __IN_OPTIMIZATION__ := false;
          group_spike := arg_group_spike a;
          init := arg_init a;
          variational_prior :=
            {| pi := pi0; prior_group_spike_prob := arg_group_spike a |};
          X := q; Y := arg_Y a; Z := Zi;
          kern := kernel;
          likelihood := likelihood0;
          inference_method := inference_method0;
          name := arg_name a;
          grad_dict := grad_dict0;
          _log_marginal_likelihood := evidence0;
          param_array := param_array0;
          Y_local := None; X_local := None; Y_range := None;
          Y_list := None |}.

(** Lines 84-92: the partition of the observations and the first
    broadcast of the parameters. *)
Definition init_mpi : Proc unit :=
  m ← get_self;
  match mpi_comm m with
  | Some comm =>
      let '(Y_start, Y_end, Y_list0) := divide_data (shape (Y m)).1 comm in
      modify_self (set_partition (slice_rows Y_start Y_end (Y m))
                     (slice_posterior Y_start Y_end (X m))
                     (Y_start, Y_end) Y_list0);;
      m ← get_self;
      p ← Bcast_array comm (param_array m);
      if (rank comm =? 0)%nat then mret tt
      else modify_self (param_array_written p)
  | None => mret tt
  end.

(** The constructor: an exception of lines 32-82 leaves no object
    behind; after them the process runs the MPI set-up on the broadcasts
    [incoming] from rank 0. *)
Definition __init__ (a : init_args) (rnd : np_random)
    (incoming : list payload) : res (outcome unit) :=
  m ← construct a rnd;
  mret (init_mpi {| self := m; sent := []; inbox := incoming |}).

(** *** The gradient slots of the posterior *)

Definition set_X_gradients (q : SpikeAndSlabPosterior)
    (X_grad : ndarray * ndarray * ndarray) : SpikeAndSlabPosterior :=
  let '(gm, gv, gb) := X_grad in
  {| mean := set_gradient gm (mean q);
     variance := set_gradient gv (variance q);
     binary_prob := set_gradient gb (binary_prob q) |}.

Definition get_X_gradients (q : SpikeAndSlabPosterior)
  : ndarray * ndarray * ndarray :=
  (gradient (mean q), gradient (variance q), gradient (binary_prob q)).

(** *** [parameters_changed] *)

Definition isinstance_VarDTC_GPU (i : InferenceMethod) : bool :=
  match i with VarDTC_GPU => true | _ => false end.

Definition isinstance_VarDTC_minibatch (i : InferenceMethod) : bool :=
  match i with VarDTC_minibatch _ => true | _ => false end.

(** Line 103: the cycle is handed to the external engine. *)
Definition dispatched (m : SSGPLVM) : bool :=
  isinstance_VarDTC_GPU (inference_method m)
  || isinstance_VarDTC_minibatch (inference_method m).

Definition parameters_changed : Proc unit :=
  m ← get_self;
  if dispatched m
  then modify_self (fun m => update_gradients m (mpi_comm m))
  else
   (modify_self SparseGP_parameters_changed;;
    modify_self (fun m =>
      set_log_marginal_likelihood
        (_log_marginal_likelihood m
         - KL_divergence (variational_prior m) (X m)) m);;
    m ← get_self;
    dL_dpsi0 ← lift_res (getitem (grad_dict m) "dL_dpsi0");
    dL_dpsi1 ← lift_res (getitem (grad_dict m) "dL_dpsi1");
    dL_dpsi2 ← lift_res (getitem (grad_dict m) "dL_dpsi2");
    (* line 110 is the assignment of [set_X_gradients] *)
    modify_self (set_X
      (set_X_gradients (X m)
         (gradients_qX_expectations (kern m) (X m) (Z m)
            dL_dpsi0 dL_dpsi1 dL_dpsi2)));;
    (* update for the KL divergence *)
    m ← get_self;
    q ← lift_res (update_gradients_KL (variational_prior m) (X m));
    modify_self (set_X q)).

(** *** [input_sensitivity] *)

Definition input_sensitivity (m : SSGPLVM) : list float :=
  if ARD (kern m) then kern_input_sensitivity (kern m)
  else pi (variational_prior m).

(** *** [__getstate__] *)

Definition __getstate__ (m : SSGPLVM) : res (gmap string pyval) :=
  let dc := SparseGP_getstate m in
  let dc := <["mpi_comm" := PyNone]> dc in
  match mpi_comm m with
  | Some _ =>
      dc ← delitem "Y_local" dc;
      dc ← delitem "X_local" dc;
      delitem "Y_range" dc
  | None => mret dc
  end.

(** *** The MPI parallelization *)

(** The parameter vector is set; the value is the buffer [p] after the
    call, which a broadcast received on a follower has overwritten. *)
Definition _set_params_transformed (p : list float) : Proc (list float) :=
  m ← get_self;
  p ← match mpi_comm m with
      | Some comm =>
          (if __IN_OPTIMIZATION__ m && (rank comm =? 0)%nat
           then Bcast_int32 comm (int32 1);; mret tt
           else mret tt);;
          Bcast_array comm p
      | None => mret p
      end;
  modify_self (SparseGP_set_params_transformed p);;
  mret p.

(** Lines 162-170, the follower's [while True]. One round takes at
    least the flag off the inbox, and [fuel] bounds the rounds: a loop
    that has used it up without returning goes on for ever. *)
Fixpoint wait_loop (fuel : nat) (x : list float) (flag : BinNums.Z)
  : Proc unit :=
  m ← get_self;
  match mpi_comm m with
  | None => raise AttributeError
  | Some comm =>
      flag ← Bcast_int32 comm flag;
      if (flag =? 1)%Z then
        (x ← _set_params_transformed x;
         match fuel with
         | O => never_returns
         | S fuel' => wait_loop fuel' x flag
         end)
      else if (flag =? -1)%Z then mret tt
      else
        (modify_self (set_IN_OPTIMIZATION false);;
         raise (Exception "Unrecognizable flag for synchronization!"))
  end.

(** [optimize]; [flag0] is what [np.empty] left in the flag buffer. *)
Definition optimize (flag0 : BinNums.Z) : Proc unit :=
  modify_self (set_IN_OPTIMIZATION true);;
  m ← get_self;
  match mpi_comm m with
  | None => SparseGP_optimize _set_params_transformed
  | Some comm =>
      if (rank comm =? 0)%nat then
        (SparseGP_optimize _set_params_transformed;;
         m ← get_self;
         match mpi_comm m with
         | Some comm => Bcast_int32 comm (int32 (-1));; mret tt
         | None => raise AttributeError
         end)
      else if (0 <? rank comm)%nat then
        (m ← get_self;
         let x := SparseGP_get_params_transformed m in
         pending ← get_inbox;
         wait_loop (length pending) x flag0)
      else mret tt
  end;;
  modify_self (set_IN_OPTIMIZATION false).

End Methods.

(** ** A concrete set of collaborators

    Small stand-ins for the rest of GPy, on which the model runs inside
    Rocq: the statements below are applied to them at concrete inputs. *)

Module Toy.

Open Scope float_scope.

Definition scalar (c : float) : tensor := {| dims := []; flat := [c] |}.

Definition with_base_state (gd : gmap string tensor) (ev : float)
    (pa : list float) (m : SSGPLVM) : SSGPLVM :=
  {| mpi_comm := mpi_comm m; __IN_OPTIMIZATION__ := __IN_OPTIMIZATION__ m;
     group_spike := group_spike m; init := init m;
     variational_prior := variational_prior m; X := X m; Y := Y m;
     Z := Z m; kern := kern m; likelihood := likelihood m;
     inference_method := inference_method m; name := name m;
     grad_dict := gd; _log_marginal_likelihood := ev; param_array := pa;
     Y_local := Y_local m; X_local := X_local m; Y_range := Y_range m;
     Y_list := Y_list m |}.

Definition statistics : gmap string tensor :=
  <["dL_dpsi0" := scalar 1]>
    (<["dL_dpsi1" := scalar 2]> (<["dL_dpsi2" := scalar 3]> ∅)).

Definition pickled (o : option pyval) (k : string)
    (d : gmap string pyval) : gmap string pyval :=
  match o with Some v => <[k := v]> d | None => d end.

Definition getstate (m : SSGPLVM) : gmap string pyval :=
  pickled (PyComm <$> mpi_comm m) "mpi_comm"
    (pickled (PyArray <$> Y_local m) "Y_local"
       (pickled ((fun q => PyArray (values (mean q))) <$> X_local m) "X_local"
          (pickled (PyTuple <$> Y_range m) "Y_range"
             (<["Y" := PyArray (Y m)]>
                (<["name" := PyObject (name m)]> ∅))))).

#[export] Instance collaborators : Collaborators := {|
  initialize_latent := fun _ input_dim Y0 =>
    (tabulate (shape Y0).1 input_dim (fun _ _ => 0.25), ones input_dim);
  RBF := fun _ fracs =>
    {| ARD := true; lengthscale := fracs; kern_group_spike_prob := false |};
  SparseGP_init := fun _ _ _ _ _ _ _ => (statistics, -10, [0.25; 0.75]);
  divide_data := fun n comm =>
    (rank comm * (n / size comm), (rank comm + 1) * (n / size comm),
     replicate (size comm) (n / size comm))%nat;
  param_array_written := fun p m =>
    with_base_state (grad_dict m) (_log_marginal_likelihood m) p m;
  SparseGP_parameters_changed := fun m =>
    with_base_state statistics (-12) (param_array m) m;
  update_gradients := fun m _ =>
    with_base_state (grad_dict m) (-20) (param_array m) m;
  KL_divergence := fun _ _ => 1.5;
  KL_gradients := fun _ means variances gamma => (means, variances, gamma);
  gradients_qX_expectations := fun _ q _ _ _ _ =>
    (values (binary_prob q), values (binary_prob q), values (binary_prob q));
  kern_input_sensitivity := lengthscale;
  SparseGP_getstate := getstate;
  SparseGP_get_params_transformed := param_array;
  SparseGP_set_params_transformed := fun p m =>
    with_base_state (grad_dict m) (_log_marginal_likelihood m) p m;
  SparseGP_optimize := fun set_params =>
    set_params [0.5; 0.5];; set_params [1; 2];; mret tt
|}.

Definition rnd : np_random :=
  {| uniform := fun _ _ => 0.05;
     randn_draws := fun i j => if (i =? j)%nat then 30 else -30;
     permutation := @rev (list float);
     uninitialised := fun _ _ => 0 |}.

Definition observations (n p : nat) : ndarray :=
  tabulate n p (fun _ _ => 1).

(** [SSGPLVM(Y, input_dim, group_spike=True)] *)
Definition grouped_args (Y0 : ndarray) (input_dim : nat) : init_args :=
  {| arg_Y := Y0; arg_input_dim := input_dim; arg_X := None;
     arg_X_variance := None; arg_init := PCA; arg_num_inducing := 10;
     arg_Z := None; arg_kernel := None; arg_inference_method := None;
     arg_likelihood := None; arg_name := "Spike-and-Slab GPLVM";
     arg_group_spike := true; arg_mpi_comm := None |}.

(** A model of two observations and two latent dimensions. *)
Definition model (inference : InferenceMethod) (comm : option Comm)
    (in_optimization : bool) : SSGPLVM :=
  {| mpi_comm := comm;
     __IN_OPTIMIZATION__ := in_optimization;
     group_spike := false;
     init := PCA;
     variational_prior := {| pi := [0.5; 0.5]; prior_group_spike_prob := false |};
     X := new_SpikeAndSlabPosterior (full (2, 2)%nat 0.25)
            (full (2, 2)%nat 0.05) (full (2, 2)%nat 0.5);
     Y := observations 2 3;
     Z := full (2, 2)%nat 0.25;
     kern := {| ARD := true; lengthscale := [1; 1];
                kern_group_spike_prob := false |};
     likelihood := Gaussian;
     inference_method := inference;
     name := "Spike-and-Slab GPLVM";
     grad_dict := ∅;
     _log_marginal_likelihood := 0;
     param_array := [0.25; 0.75];
     Y_local := None; X_local := None; Y_range := None; Y_list := None |}.

Definition running (m : SSGPLVM) (incoming : list payload) : process :=
  {| self := m; sent := []; inbox := incoming |}.

Definition root : Comm := {| rank := 0; size := 3 |}.

Definition follower : Comm := {| rank := 2; size := 3 |}.

End Toy.

(** ** Scripts of a session

    What an optimization looks like from the two sides of the channel,
    for an optimizer that sets the vectors [ps] one after the other. *)

(** The optimizer: [SparseGP.optimize] calling [set_params] on each
    vector in turn. *)
Definition optimizer_steps (ps : list (list float))
    (set_params : list float -> Proc (list float)) : Proc unit :=
  foldr (fun p k => set_params p;; k) (mret tt) ps.

(** The continue signal and the vector, for each vector. *)
Definition write_through_log (ps : list (list float)) : list payload :=
  flat_map (fun p => [Signal 1; Params p]) ps.

(** The model after the base class has applied each vector. *)
Definition apply_each {gpy : Collaborators} (ps : list (list float))
    (m : SSGPLVM) : SSGPLVM :=
  foldl (fun m p => SparseGP_set_params_transformed p m) m ps.

(** ** More inputs to run the model on *)

Module Cases.

Open Scope float_scope.

(** Four observations of three features, with the given latent matrix,
    inducing inputs, kernel, latent dimension, grouping and
    communicator. *)
Definition args (X0 Zi : option ndarray) (k : option Kern) (input_dim : nat)
    (grouped : bool) (comm : option Comm) : init_args :=
  {| arg_Y := Toy.observations 4 3; arg_input_dim := input_dim;
     arg_X := X0; arg_X_variance := None; arg_init := PCA;
     arg_num_inducing := 3; arg_Z := Zi; arg_kernel := k;
     arg_inference_method := None; arg_likelihood := None;
     arg_name := "Spike-and-Slab GPLVM"; arg_group_spike := grouped;
     arg_mpi_comm := comm |}.

(** A latent matrix of integers, as [np.zeros((4, 2), dtype=int)]. *)
Definition integers : ndarray :=
  NDArray int64 (4, 2)%nat (replicate 4 [0; 0]).

(** A kernel without ARD. *)
Definition linear : Kern :=
  {| ARD := false; lengthscale := [1]; kern_group_spike_prob := false |}.

(** Collaborators whose kernel expectations have a zero gradient. *)
Definition still : Collaborators :=
  {| initialize_latent := initialize_latent (Collaborators := Toy.collaborators);
     RBF := RBF (Collaborators := Toy.collaborators);
     SparseGP_init := SparseGP_init (Collaborators := Toy.collaborators);
     divide_data := divide_data (Collaborators := Toy.collaborators);
     param_array_written :=
       param_array_written (Collaborators := Toy.collaborators);
     SparseGP_parameters_changed :=
       SparseGP_parameters_changed (Collaborators := Toy.collaborators);
     update_gradients := update_gradients (Collaborators := Toy.collaborators);
     KL_divergence := KL_divergence (Collaborators := Toy.collaborators);
     KL_gradients := KL_gradients (Collaborators := Toy.collaborators);
     gradients_qX_expectations := fun _ q _ _ _ _ =>
       (zeros (shape (values (mean q))), zeros (shape (values (variance q))),
        zeros (shape (values (binary_prob q))));
     kern_input_sensitivity :=
       kern_input_sensitivity (Collaborators := Toy.collaborators);
     SparseGP_getstate := SparseGP_getstate (Collaborators := Toy.collaborators);
     SparseGP_get_params_transformed :=
       SparseGP_get_params_transformed (Collaborators := Toy.collaborators);
     SparseGP_set_params_transformed :=
       SparseGP_set_params_transformed (Collaborators := Toy.collaborators);
     SparseGP_optimize := SparseGP_optimize (Collaborators := Toy.collaborators)
  |}.

(** Collaborators whose base computation forgets [dL_dpsi1] and
    [dL_dpsi2]. *)
Definition forgetful : Collaborators :=
  {| initialize_latent := initialize_latent (Collaborators := Toy.collaborators);
     RBF := RBF (Collaborators := Toy.collaborators);
     SparseGP_init := SparseGP_init (Collaborators := Toy.collaborators);
     divide_data := divide_data (Collaborators := Toy.collaborators);
     param_array_written :=
       param_array_written (Collaborators := Toy.collaborators);
     SparseGP_parameters_changed := fun m =>
       Toy.with_base_state
         (delete "dL_dpsi2" (delete "dL_dpsi1" Toy.statistics)) (-12)
         (param_array m) m;
     update_gradients := update_gradients (Collaborators := Toy.collaborators);
     KL_divergence := KL_divergence (Collaborators := Toy.collaborators);
     KL_gradients := KL_gradients (Collaborators := Toy.collaborators);
     gradients_qX_expectations :=
       gradients_qX_expectations (Collaborators := Toy.collaborators);
     kern_input_sensitivity :=
       kern_input_sensitivity (Collaborators := Toy.collaborators);
     SparseGP_getstate := SparseGP_getstate (Collaborators := Toy.collaborators);
     SparseGP_get_params_transformed :=
       SparseGP_get_params_transformed (Collaborators := Toy.collaborators);
     SparseGP_set_params_transformed :=
       SparseGP_set_params_transformed (Collaborators := Toy.collaborators);
     SparseGP_optimize := SparseGP_optimize (Collaborators := Toy.collaborators)
  |}.

(** The vectors the optimizer of [Toy] sets. *)
Definition steps : list (list float) := [[0.5; 0.5]; [1; 2]].

(** A model alone, with an inference method of the base class, before
    and after one recomputation cycle. *)
Definition idle : process :=
  Toy.running (Toy.model (OtherInference "VarDTC") None false) [].

Definition cycled (gpy : Collaborators) : process :=
  final (parameters_changed (gpy := gpy) idle).

End Cases.

(** * Properties *)

(** ** Arrays *)

Section ArrayFacts.

Open Scope float_scope.

Lemma axis_fits_refl n : axis_fits n n = true.
Proof. unfold axis_fits. by rewrite Nat.eqb_refl. Qed.

Lemma cast_rows_replicate t n q c :
  cast_rows t (replicate n (replicate q c)) =
    replicate n (replicate q (astype t c)).
Proof.
  destruct t; [done|]. unfold cast_rows, astype.
  assert (Hrow : map truncate (replicate q c) = replicate q (truncate c)).
  { induction q as [|q IH]; simpl; [done | by rewrite IH]. }
  induction n as [|n IH]; simpl; [done | by rewrite IH, Hrow].
Qed.

Lemma setitem_all_scalar dst c :
  setitem_all dst (Scalar c) = Ok (full_of (dtype dst) (shape dst) c).
Proof.
  unfold setitem_all, broadcast_to, full_of; cbn [mbind res_bind mret res_ret].
  by rewrite cast_rows_replicate.
Qed.

Lemma dtype_setitem_mask mask c a : dtype (setitem_mask mask c a) = dtype a.
Proof. reflexivity. Qed.


Lemma shape_setitem_mask mask c a : shape (setitem_mask mask c a) = shape a.
Proof. reflexivity. Qed.


Lemma all_entries_map_entries (P : float -> Prop) f a :
  (forall x, P (f x)) -> all_entries P (map_entries f a).
Proof.
  intros Hf. unfold all_entries, map_entries; simpl.
  apply Forall_map, Forall_forall; intros r _.
  apply Forall_map, Forall_forall; intros x _. apply Hf.
Qed.

(** The first column of a constant array with at least one column. *)
Lemma column_full t n q c :
  column (NDArray t (n, S q) (replicate n (replicate (S q) c))) 0 =
    Ok (replicate n c).
Proof.
  unfold column; simpl.
  assert (Hm : mapM (fun r : list float => r !! 0%nat)
                 (replicate n (c :: replicate q c)) = Some (replicate n c)).
  { induction n as [|n IH]; simpl; [done|]. by rewrite IH. }
  by rewrite Hm.
Qed.

(** A constant vector stretched over an axis it fits. *)
Lemma stretch_replicate n d (c : float) :
  axis_fits n d = true -> stretch d (replicate n c) = replicate d c.
Proof.
  unfold axis_fits, stretch. rewrite length_replicate.
  destruct (n =? d)%nat eqn:End; simpl.
  - intros _. apply Nat.eqb_eq in End. by subst.
  - intros E1. apply Nat.eqb_eq in E1. by subst.
Qed.

Lemma setitem_all_constant_vector dst n c :
  setitem_all dst (Vector (replicate n c)) =
    if axis_fits n (shape dst).2 then Ok (full_of (dtype dst) (shape dst) c)
    else Raise ValueError.
Proof.
  unfold setitem_all, broadcast_to. rewrite length_replicate.
  destruct (axis_fits n (shape dst).2) eqn:Hfit; [|done].
  cbn [mbind res_bind mret res_ret].
  by rewrite stretch_replicate, cast_rows_replicate.
Qed.

(** What an integer array keeps of one half, and of what it kept. *)
Lemma truncate_one_half : truncate 0.5 = 0.
Proof. reflexivity. Qed.

Lemma astype_one_half_twice t : astype t (astype t 0.5) = astype t 0.5.
Proof. by destruct t. Qed.

End ArrayFacts.

(** ** The constructor *)

Section Construction.

Context {gpy : Collaborators}.

Open Scope float_scope.

(** The perturbed field is assigned when the draws, of shape
    [(X.shape[0], input_dim)], broadcast to the shape of [X]. *)
Lemma gamma_perturbed_eq X0 input_dim rnd :
  gamma_perturbed X0 input_dim rnd =
    if axis_fits input_dim (shape X0).2
    then Ok (NDArray (dtype X0) (shape X0)
               (cast_rows (dtype X0)
                  (stretch (shape X0).1
                     (map (stretch (shape X0).2)
                        (rows (scalar_add 0.5
                           (scalar_mul 0.1
                              (randn (randn_draws rnd) (shape X0).1
                                 input_dim))))))))
    else Raise ValueError.
Proof.
  unfold gamma_perturbed, setitem_all, broadcast_to, empty_like, empty.
  destruct (shape X0) as [n q]; simpl.
  rewrite axis_fits_refl; simpl.
  by destruct (axis_fits input_dim q).
Qed.

(** Lines 47-54 in closed form: what [gamma] is, or the exception the
    constructor stops with. *)
Lemma init_gamma_eq X0 input_dim rnd group_spike0 :
  init_gamma X0 input_dim rnd group_spike0 =
    if axis_fits input_dim (shape X0).2 then
      if group_spike0 then
        if (0 <? (shape X0).2)%nat then
          if axis_fits (shape X0).1 (shape X0).2
          then Ok (full_of (dtype X0) (shape X0) 0.5)
          else Raise ValueError
        else Raise IndexError
      else Ok (full_of (dtype X0) (shape X0) 0.5)
    else Raise ValueError.
Proof.
  unfold init_gamma. rewrite gamma_perturbed_eq.
  destruct (axis_fits input_dim (shape X0).2); [|done].
  cbn [mbind res_bind]. rewrite setitem_all_scalar.
  cbn [mbind res_bind]. unfold gamma_clamped.
  rewrite !shape_setitem_mask, !dtype_setitem_mask.
  cbn [shape dtype].
  destruct group_spike0; [|done].
  destruct (shape X0) as [n q]; cbn [fst snd].
  destruct q as [|q]; [done|].
  unfold full_of; cbn [fst snd].
  rewrite column_full. cbn [mbind res_bind Nat.ltb Nat.leb].
  rewrite setitem_all_constant_vector. cbn [shape dtype fst snd].
  unfold full_of; cbn [fst snd]. by rewrite astype_one_half_twice.
Qed.

(** What a constructed model holds of the constructor's steps. *)
Lemma construct_inv a rnd m :
  construct a rnd = Ok m ->
  exists gamma Zi,
    init_gamma (init_latent a).1 (arg_input_dim a) rnd (arg_group_spike a)
      = Ok gamma
    /\ init_Z a rnd (init_latent a).1 = Ok Zi
    /\ X m = new_SpikeAndSlabPosterior (init_latent a).1
               (init_X_variance a rnd (init_latent a).1) gamma
    /\ pi (variational_prior m) = init_pi (arg_input_dim a)
    /\ inference_method m = init_inference_method a
    /\ mpi_comm m = arg_mpi_comm a
    /\ group_spike m = arg_group_spike a
    /\ __IN_OPTIMIZATION__ m = false.
Proof.
  unfold construct. destruct (init_latent a) as [X0 fracs]; cbn [fst].
  destruct (init_gamma _ _ _ _) as [gamma|e]; [|done].
  cbn [mbind res_bind].
  destruct (init_Z a rnd X0) as [Zi|e]; [|done].
  cbn [mbind res_bind].
  destruct (SparseGP_init _ _ _ _ _ _ _) as [[gd ev] pa].
  intros [= <-]. by exists gamma, Zi.
Qed.

(** The clamps of lines 49-50 act entry by entry; in a [float64] array
    they leave no entry above [1 - 1e-9] or below [1e-9]. *)
Lemma gamma_clamped_all g :
  dtype g = float64 -> all_entries clamped (gamma_clamped g).
Proof.
  intros Hg.
  unfold gamma_clamped, setitem_mask, all_entries, map_entries;
    cbn [rows dtype].
  rewrite Hg; cbn [astype].
  rewrite map_map. apply Forall_map, Forall_forall; intros r _.
  rewrite map_map. apply Forall_map, Forall_forall; intros x _.
  unfold clamped.
  destruct (1 - 1e-9 <? x) eqn:Ehi.
  - vm_compute. done.
  - destruct (x <? 1e-9) eqn:Elo; [vm_compute; done | done].
Qed.


(** Lines 47-54 and 80: the inclusion probabilities a constructed model
    holds are the constant array line 51 stores, at the dtype
    [np.empty_like] took from the latent means. *)
Lemma constructed_binary_prob a rnd m :
  construct a rnd = Ok m ->
  values (binary_prob (X m)) =
    full_of (dtype (init_latent a).1) (shape (init_latent a).1) 0.5.
Proof.
  intros Hm. apply construct_inv in Hm as (gamma & Zi & Hg & _ & HX & _).
  rewrite HX; cbn [binary_prob new_SpikeAndSlabPosterior new_Param values].
  rewrite init_gamma_eq in Hg.
  repeat match type of Hg with
         | (if ?b then _ else _) = _ => destruct b; try done
         end;
    by injection Hg as <-.
Qed.

Lemma all_entries_full_of (P : float -> Prop) t sh c :
  P (astype t c) -> all_entries P (full_of t sh c).
Proof.
  intros Hc. unfold all_entries, full_of; cbn [rows].
  apply Forall_replicate, Forall_replicate, Hc.
Qed.


(** C10: without grouping, every entry of the prior's [pi] is exactly
    0.5 and the constructed posterior's [binary_prob] is the constant
    array that line 51 stores at the dtype of the latent means,
    whatever was drawn: every entry is exactly 0.5 when the latent
    means are [float64], and every entry is 0 when the caller's [X] is
    an integer array, since [np.empty_like(X)] keeps its dtype and the
    store truncates. *)
Theorem ungrouped_binary_prob_by_dtype a rnd m :
  arg_group_spike a = false ->
  construct a rnd = Ok m ->
  values (binary_prob (X m)) =
    full_of (dtype (init_latent a).1) (shape (init_latent a).1) 0.5
  /\ (dtype (init_latent a).1 = float64 ->
        all_entries (eq 0.5) (values (binary_prob (X m))))
  /\ (dtype (init_latent a).1 = int64 ->
        all_entries (eq 0) (values (binary_prob (X m))))
  /\ pi (variational_prior m) = replicate (arg_input_dim a) 0.5
  /\ Forall (eq 0.5) (pi (variational_prior m)).
Proof.
  intros Hgs Hm. pose proof (constructed_binary_prob _ _ _ Hm) as Hb.
  apply construct_inv in Hm as (gamma & Zi & _ & _ & _ & Hpi & _).
  rewrite Hb, Hpi. unfold init_pi, full1. split_and!.
  - done.
  - intros ->. by apply all_entries_full_of.
  - intros ->. by apply all_entries_full_of.
  - done.
  - by apply Forall_replicate.
Qed.

(** With grouping, the constructor stops at line 54 unless the latent
    matrix is square or has one row. *)
Lemma init_gamma_grouped_raises X0 input_dim rnd n q :
  shape X0 = (n, q) -> input_dim = q -> (0 < q)%nat -> n <> q -> n <> 1%nat ->
  init_gamma X0 input_dim rnd true = Raise ValueError.
Proof.
  intros Hsh -> Hq Hnq Hn1. rewrite init_gamma_eq, Hsh; cbn [fst snd].
  rewrite axis_fits_refl.
  destruct (Nat.ltb_spec 0%nat q); [|lia].
  unfold axis_fits.
  destruct (Nat.eqb_spec n q); [done|].
  destruct (Nat.eqb_spec n 1%nat); done.
Qed.

(** C8: with [group_spike=True] and latent means of shape [(n, q)],
    [q = input_dim] positive, the constructor raises [ValueError] at
    line 54 as soon as [n] is neither [q] nor 1: the first column, of
    shape [(n,)], does not broadcast to [(n, q)]. *)
Theorem group_spike_construction_raises a rnd n q :
  arg_group_spike a = true ->
  shape (init_latent a).1 = (n, q) ->
  arg_input_dim a = q -> (0 < q)%nat -> n <> q -> n <> 1%nat ->
  construct a rnd = Raise ValueError.
Proof.
  intros Hgs Hsh Hd Hq Hnq Hn1. unfold construct.
  destruct (init_latent a) as [X0 fracs]; cbn [fst] in Hsh.
  rewrite Hgs.
  by rewrite (init_gamma_grouped_raises X0 _ rnd n q).
Qed.

(** Where the grouped constructor does return, every row of
    [binary_prob] is constant. *)
Lemma grouped_rows_constant a rnd m :
  arg_group_spike a = true ->
  construct a rnd = Ok m ->
  Forall (fun r => forall x y : float, x ∈ r -> y ∈ r -> x = y)
         (rows (values (binary_prob (X m)))).
Proof.
  intros Hgs Hm.
  apply construct_inv in Hm as (gamma & Zi & Hg & _ & HX & _).
  rewrite init_gamma_eq in Hg.
  repeat match type of Hg with
         | (if ?b then _ else _) = _ => destruct b; try done
         end;
    injection Hg as <-; rewrite HX;
    cbn [binary_prob new_SpikeAndSlabPosterior new_Param values full_of rows];
    apply Forall_replicate; intros x y Hx%elem_of_replicate Hy%elem_of_replicate;
    destruct Hx, Hy; congruence.
Qed.

End Construction.



Lemma ungrouped_binary_prob_by_dtype_witness :
  exists m,
    construct (gpy := Toy.collaborators)
      (Cases.args (Some Cases.integers) None None 2 false None) Toy.rnd = Ok m
    /\ all_entries (eq 0%float) (values (binary_prob (X m)))
    /\ Forall (eq 0.5%float) (pi (variational_prior m)).
Proof.
  eexists. split; [vm_compute; reflexivity|].
  pose proof (ungrouped_binary_prob_by_dtype
                (gpy := Toy.collaborators)
                (Cases.args (Some Cases.integers) None None 2 false None)
                Toy.rnd _ eq_refl eq_refl) as (_ & _ & Hgamma & _ & Hpi).
  exact (conj (Hgamma eq_refl) Hpi).
Defined.

Lemma group_spike_construction_raises_witness :
  construct (gpy := Toy.collaborators)
    (Toy.grouped_args (Toy.observations 50 3) 2) Toy.rnd = Raise ValueError.
Proof.
  apply (group_spike_construction_raises (gpy := Toy.collaborators)
           (Toy.grouped_args (Toy.observations 50 3) 2) Toy.rnd 50 2);
    [reflexivity | reflexivity | reflexivity | lia | lia | lia].
Defined.

(** ** Floating-point addition from zero *)

Section FloatFacts.

Open Scope float_scope.

Lemma zero_add_spec x :
  Prim2SF (0 + x) =
    match Prim2SF x with
    | S754_zero _ => S754_zero false
    | sx => sx
    end.
Proof.
  rewrite FloatAxioms.add_spec. change (Prim2SF 0) with (S754_zero false).
  unfold SF64add, SFadd. by destruct (Prim2SF x) as [[]| | |].
Qed.

(** Adding [x] twice to zero gives the sum of [0 + x] with itself, for
    every binary64 value: [0 + x] is [x], but for the negative zero,
    where both sides are the positive zero. *)
Lemma add_zero_twice x : 0 + x + x = (0 + x) + (0 + x).
Proof.
  destruct (Prim2SF x) as [sg|sg| |sg mx ex] eqn:E.
  - assert (H0 : 0 + x = 0).
    { apply Prim2SF_inj. by rewrite zero_add_spec, E. }
    rewrite H0. apply Prim2SF_inj. rewrite !FloatAxioms.add_spec, E.
    change (Prim2SF 0) with (S754_zero false). by destruct sg.
  - assert (H0 : 0 + x = x); [|by rewrite H0].
    apply Prim2SF_inj. by rewrite zero_add_spec, E.
  - assert (H0 : 0 + x = x); [|by rewrite H0].
    apply Prim2SF_inj. by rewrite zero_add_spec, E.
  - assert (H0 : 0 + x = x); [|by rewrite H0].
    apply Prim2SF_inj. by rewrite zero_add_spec, E.
Qed.

Lemma zip_add_zero_twice (z b : list float) :
  Forall (eq 0) z ->
  zip_with PrimFloat.add (zip_with PrimFloat.add z b) b =
    map (fun x => x + x) (zip_with PrimFloat.add z b).
Proof.
  intros Hz. revert b.
  induction Hz as [|x z <- _ IH]; intros [|y b]; simpl; try done.
  by rewrite IH, add_zero_twice.
Qed.

Lemma zip_rows_add_zero_twice (zs bs : list (list float)) :
  Forall (Forall (eq 0)) zs ->
  zip_with (zip_with PrimFloat.add)
    (zip_with (zip_with PrimFloat.add) zs bs) bs =
    map (map (fun x => x + x)) (zip_with (zip_with PrimFloat.add) zs bs).
Proof.
  intros Hz. revert bs.
  induction Hz as [|z zs Hz _ IH]; intros [|b bs]; simpl; try done.
  by rewrite IH, zip_add_zero_twice.
Qed.

End FloatFacts.

(** ** The recomputation cycle *)

Section Cycle.

Context {gpy : Collaborators}.

Open Scope float_scope.

(** The cycle in closed form when it is not handed to the external
    engine: the base computation, the evidence less the KL divergence,
    the three lookups of line 110 in their order, the gradients of the
    kernel expectations in the slots, and the KL update on top. *)
Lemma parameters_changed_cycle s :
  dispatched (self s) = false ->
  let m1 := SparseGP_parameters_changed (self s) in
  let m2 := set_log_marginal_likelihood
              (_log_marginal_likelihood m1
               - KL_divergence (variational_prior m1) (X m1)) m1 in
  let at_ m := {| self := m; sent := sent s; inbox := inbox s |} in
  parameters_changed s =
    match getitem (grad_dict m1) "dL_dpsi0" with
    | Raise e => Raised e (at_ m2)
    | Ok d0 =>
    match getitem (grad_dict m1) "dL_dpsi1" with
    | Raise e => Raised e (at_ m2)
    | Ok d1 =>
    match getitem (grad_dict m1) "dL_dpsi2" with
    | Raise e => Raised e (at_ m2)
    | Ok d2 =>
        let q := set_X_gradients (X m1)
                   (gradients_qX_expectations (kern m1) (X m1) (Z m1)
                      d0 d1 d2) in
        match update_gradients_KL (variational_prior m1) q with
        | Raise e => Raised e (at_ (set_X q m2))
        | Ok q' => Returned tt (at_ (set_X q' (set_X q m2)))
        end
    end end end.
Proof.
  intros Hd. unfold parameters_changed.
  unfold mbind, Proc_bind, get_self, modify_self, lift_res, mret, Proc_ret.
  cbn [self sent inbox]. rewrite Hd.
  cbn [set_log_marginal_likelihood grad_dict X kern Z variational_prior
       set_X].
  destruct (getitem _ "dL_dpsi0") as [d0|e]; [|done].
  destruct (getitem _ "dL_dpsi1") as [d1|e]; [|done].
  destruct (getitem _ "dL_dpsi2") as [d2|e]; [|done].
  cbn [self sent inbox set_X X variational_prior].
  by destruct (update_gradients_KL _ _) as [q'|e].
Qed.

(** C1: in a cycle that is not handed to the minibatch or GPU engine,
    the evidence the model holds after [parameters_changed], however
    the call ends, is the evidence of the base computation less
    [variational_prior.KL_divergence(X)]; and the call returns when the
    gradient dictionary has the three statistics and the KL update
    goes through. *)
Theorem evidence_is_base_minus_KL s :
  dispatched (self s) = false ->
  let m1 := SparseGP_parameters_changed (self s) in
  let evidence := _log_marginal_likelihood m1
                  - KL_divergence (variational_prior m1) (X m1) in
  _log_marginal_likelihood (self (final (parameters_changed s))) = evidence
  /\ (forall d0 d1 d2 q,
        grad_dict m1 !! "dL_dpsi0" = Some d0 ->
        grad_dict m1 !! "dL_dpsi1" = Some d1 ->
        grad_dict m1 !! "dL_dpsi2" = Some d2 ->
        update_gradients_KL (variational_prior m1)
          (set_X_gradients (X m1)
             (gradients_qX_expectations (kern m1) (X m1) (Z m1) d0 d1 d2))
          = Ok q ->
        exists s', parameters_changed s = Returned tt s'
                   /\ _log_marginal_likelihood (self s') = evidence).
Proof.
  intros Hd m1 evidence.
  pose proof (parameters_changed_cycle s Hd) as Hcycle.
  cbv zeta in Hcycle. fold m1 in Hcycle. fold evidence in Hcycle.
  split.
  - rewrite Hcycle.
    destruct (getitem _ "dL_dpsi0") as [d0|e]; [|done].
    destruct (getitem _ "dL_dpsi1") as [d1|e]; [|done].
    destruct (getitem _ "dL_dpsi2") as [d2|e]; [|done].
    by destruct (update_gradients_KL _ _) as [q'|e].
  - intros d0 d1 d2 q H0 H1 H2 Hq. rewrite Hcycle.
    unfold getitem. rewrite H0, H1, H2, Hq. by eexists.
Qed.

(** C2: when the inference method is an instance of [VarDTC_GPU] or of
    [VarDTC_minibatch], [parameters_changed] returns the model exactly
    as [update_gradients(self, mpi_comm=self.mpi_comm)] left it: the
    evidence and the gradient slots are the engine's, and the broadcast
    channel is untouched. *)
Theorem dispatched_cycle_is_the_engine s :
  inference_method (self s) = VarDTC_GPU
  \/ (exists comm, inference_method (self s) = VarDTC_minibatch comm) ->
  parameters_changed s =
    Returned tt {| self := update_gradients (self s) (mpi_comm (self s));
                   sent := sent s; inbox := inbox s |}.
Proof.
  intros Hi.
  assert (Hd : dispatched (self s) = true).
  { unfold dispatched. destruct Hi as [->|[comm ->]]; done. }
  unfold parameters_changed.
  unfold mbind, Proc_bind, get_self, modify_self. cbn [self sent inbox].
  by rewrite Hd.
Qed.

(** [slot += g] in closed form. *)
Definition accumulated (slot : ndarray) (b : list (list float)) : ndarray :=
  NDArray (dtype slot) (shape slot)
    (cast_rows (dtype slot) (zip_with (zip_with PrimFloat.add) (rows slot) b)).

(** What one KL update does to the posterior. *)
Lemma update_gradients_KL_inv prior q q1 :
  update_gradients_KL prior q = Ok q1 ->
  exists dm dv dg bm bv bb,
    KL_gradients prior (values (mean q)) (values (variance q))
      (values (binary_prob q)) = (dm, dv, dg)
    /\ broadcast_to (shape (gradient (mean q))) (Matrix dm) = Ok bm
    /\ broadcast_to (shape (gradient (variance q))) (Matrix dv) = Ok bv
    /\ broadcast_to (shape (gradient (binary_prob q))) (Matrix dg) = Ok bb
    /\ q1 =
       {| mean := set_gradient (accumulated (gradient (mean q)) bm) (mean q);
          variance :=
            set_gradient (accumulated (gradient (variance q)) bv) (variance q);
          binary_prob :=
            set_gradient (accumulated (gradient (binary_prob q)) bb)
              (binary_prob q) |}.
Proof.
  unfold update_gradients_KL, iadd.
  destruct (KL_gradients _ _ _ _) as [[dm dv] dg].
  destruct (broadcast_to _ (Matrix dm)) as [bm|e] eqn:Em; [|done].
  cbn [mbind res_bind mret res_ret].
  destruct (broadcast_to _ (Matrix dv)) as [bv|e] eqn:Ev; [|done].
  cbn [mbind res_bind mret res_ret].
  destruct (broadcast_to _ (Matrix dg)) as [bb|e] eqn:Eg; [|done].
  cbn [mbind res_bind mret res_ret].
  intros [= <-]. by exists dm, dv, dg, bm, bv, bb.
Qed.

(** A second addition of the same rows to a zero slot doubles what the
    first left. *)
Lemma accumulated_twice slot b :
  zero_slot slot ->
  accumulated (accumulated slot b) b = double (accumulated slot b).
Proof.
  intros [Ht Hz]. unfold accumulated, double, map_entries.
  cbn [dtype shape rows]. rewrite Ht; cbn [cast_rows].
  by rewrite zip_rows_add_zero_twice.
Qed.

(** A second KL update on zeroed slots doubles what the first left. *)
Lemma update_gradients_KL_twice prior q q1 :
  zeroed q ->
  update_gradients_KL prior q = Ok q1 ->
  exists q2,
    update_gradients_KL prior q1 = Ok q2
    /\ gradient (mean q2) = double (gradient (mean q1))
    /\ gradient (variance q2) = double (gradient (variance q1))
    /\ gradient (binary_prob q2) = double (gradient (binary_prob q1)).
Proof.
  intros (Hzm & Hzv & Hzb) Hq1.
  apply update_gradients_KL_inv in Hq1
    as (dm & dv & dg & bm & bv & bb & Hkl & Em & Ev & Eb & ->).
  unfold update_gradients_KL, iadd.
  cbn [mean variance binary_prob set_gradient values gradient accumulated
       shape rows dtype].
  rewrite Hkl, Em. cbn [mbind res_bind mret res_ret].
  rewrite Ev. cbn [mbind res_bind mret res_ret].
  rewrite Eb. cbn [mbind res_bind mret res_ret].
  eexists. split; [reflexivity|].
  cbn [mean variance binary_prob set_gradient gradient].
  rewrite <- (accumulated_twice _ bm Hzm), <- (accumulated_twice _ bv Hzv),
    <- (accumulated_twice _ bb Hzb).
  done.
Qed.

(** C5: in a cycle that is not handed to the external engine and
    returns, each of the three gradient slots of the posterior ends as
    the gradient of the kernel expectations (line 110) with the KL
    gradient, broadcast to its shape, added entry by entry (line 113),
    the parameters' values being left alone; when the kernel gradients
    are zero, one more KL update on the posterior the cycle left
    doubles every slot; and on any posterior with zeroed slots a second
    KL update leaves in each slot, entry by entry, the sum with itself
    of what the first one left. *)
Theorem KL_gradient_is_accumulated :
  (forall s s',
      dispatched (self s) = false ->
      parameters_changed s = Returned tt s' ->
      let m1 := SparseGP_parameters_changed (self s) in
      exists d0 d1 d2 km kv kb dm dv dg bm bv bb,
        grad_dict m1 !! "dL_dpsi0" = Some d0
        /\ grad_dict m1 !! "dL_dpsi1" = Some d1
        /\ grad_dict m1 !! "dL_dpsi2" = Some d2
        /\ gradients_qX_expectations (kern m1) (X m1) (Z m1) d0 d1 d2
           = (km, kv, kb)
        /\ KL_gradients (variational_prior m1) (values (mean (X m1)))
             (values (variance (X m1))) (values (binary_prob (X m1)))
           = (dm, dv, dg)
        /\ broadcast_to (shape km) (Matrix dm) = Ok bm
        /\ broadcast_to (shape kv) (Matrix dv) = Ok bv
        /\ broadcast_to (shape kb) (Matrix dg) = Ok bb
        /\ gradient (mean (X (self s'))) =
             NDArray (dtype km) (shape km)
               (cast_rows (dtype km)
                  (zip_with (zip_with PrimFloat.add) (rows km) bm))
        /\ gradient (variance (X (self s'))) =
             NDArray (dtype kv) (shape kv)
               (cast_rows (dtype kv)
                  (zip_with (zip_with PrimFloat.add) (rows kv) bv))
        /\ gradient (binary_prob (X (self s'))) =
             NDArray (dtype kb) (shape kb)
               (cast_rows (dtype kb)
                  (zip_with (zip_with PrimFloat.add) (rows kb) bb))
        /\ values (mean (X (self s'))) = values (mean (X m1))
        /\ values (variance (X (self s'))) = values (variance (X m1))
        /\ values (binary_prob (X (self s'))) = values (binary_prob (X m1))
        /\ (zero_slot km -> zero_slot kv -> zero_slot kb ->
            exists q2,
              update_gradients_KL (variational_prior (self s')) (X (self s'))
                = Ok q2
              /\ gradient (mean q2) = double (gradient (mean (X (self s'))))
              /\ gradient (variance q2) =
                   double (gradient (variance (X (self s'))))
              /\ gradient (binary_prob q2) =
                   double (gradient (binary_prob (X (self s'))))))
  /\ (forall prior q q1,
        zeroed q ->
        update_gradients_KL prior q = Ok q1 ->
        exists q2,
          update_gradients_KL prior q1 = Ok q2
          /\ gradient (mean q2) = double (gradient (mean q1))
          /\ gradient (variance q2) = double (gradient (variance q1))
          /\ gradient (binary_prob q2) = double (gradient (binary_prob q1))).
Proof.
  split.
  - intros s s' Hd Hs'. rewrite (parameters_changed_cycle s Hd) in Hs'.
    cbv zeta in Hs' |- *. unfold getitem in Hs'.
    destruct (grad_dict _ !! "dL_dpsi0") as [d0|]; [|done].
    destruct (grad_dict _ !! "dL_dpsi1") as [d1|]; [|done].
    destruct (grad_dict _ !! "dL_dpsi2") as [d2|]; [|done].
    destruct (gradients_qX_expectations _ _ _ d0 d1 d2) as [[km kv] kb]
      eqn:Hk.
    destruct (update_gradients_KL _ _) as [q'|e] eqn:Hq'; [|done].
    injection Hs' as <-. cbn [self set_X X variational_prior
                               set_log_marginal_likelihood].
    pose proof Hq' as Hinv.
    apply update_gradients_KL_inv in Hinv
      as (dm & dv & dg & bm & bv & bb & Hkl & Em & Ev & Eb & Hq).
    cbn [set_X_gradients mean variance binary_prob set_gradient values
         gradient] in Hkl, Em, Ev, Eb, Hq.
    exists d0, d1, d2, km, kv, kb, dm, dv, dg, bm, bv, bb.
    split_and!; try done; try (by rewrite Hq).
    intros Hzm Hzv Hzb.
    eapply update_gradients_KL_twice; [|exact Hq'].
    by split_and!.
  - apply update_gradients_KL_twice.
Qed.

End Cycle.

Lemma evidence_is_base_minus_KL_witness :
  let s := Toy.running (Toy.model (OtherInference "VarDTC") None false) [] in
  dispatched (self s) = false
  /\ _log_marginal_likelihood
       (self (final (parameters_changed (gpy := Toy.collaborators) s)))
     = (-12 - 1.5)%float.
Proof.
  split; [reflexivity|].
  exact (proj1 (evidence_is_base_minus_KL (gpy := Toy.collaborators)
                  (Toy.running (Toy.model (OtherInference "VarDTC") None false) [])
                  eq_refl)).
Defined.

Lemma dispatched_cycle_is_the_engine_witness :
  let s := Toy.running (Toy.model (VarDTC_minibatch None) None false) [] in
  _log_marginal_likelihood
    (self (final (parameters_changed (gpy := Toy.collaborators) s)))
  = (-20)%float.
Proof.
  cbv zeta.
  rewrite (dispatched_cycle_is_the_engine (gpy := Toy.collaborators)
             (Toy.running (Toy.model (VarDTC_minibatch None) None false) []));
    [reflexivity | right; by eexists].
Defined.

Lemma KL_gradient_is_accumulated_witness :
  (parameters_changed (gpy := Toy.collaborators) Cases.idle
     = Returned tt (Cases.cycled Toy.collaborators)
   /\ gradient (mean (X (self (Cases.cycled Toy.collaborators))))
      = full (2, 2)%nat 0.75%float
   /\ gradient (variance (X (self (Cases.cycled Toy.collaborators))))
      = full (2, 2)%nat 0.55%float
   /\ gradient (binary_prob (X (self (Cases.cycled Toy.collaborators))))
      = full (2, 2)%nat 1%float)
  /\ (exists q2,
        parameters_changed (gpy := Cases.still) Cases.idle
          = Returned tt (Cases.cycled Cases.still)
        /\ gradient (mean (X (self (Cases.cycled Cases.still))))
           = full (2, 2)%nat 0.25%float
        /\ update_gradients_KL (gpy := Cases.still)
             (variational_prior (self (Cases.cycled Cases.still)))
             (X (self (Cases.cycled Cases.still))) = Ok q2
        /\ gradient (mean q2) = full (2, 2)%nat 0.5%float).
Proof.
  split.
  - split; [vm_compute; reflexivity|].
    destruct (proj1 (KL_gradient_is_accumulated (gpy := Toy.collaborators))
                Cases.idle (Cases.cycled Toy.collaborators)
                ltac:(vm_compute; reflexivity) ltac:(vm_compute; reflexivity))
      as (d0 & d1 & d2 & km & kv & kb & dm & dv & dg & bm & bv & bb
          & _ & _ & _ & Hk & Hkl & Em & Ev & Eb & Hm & Hv & Hb & _).
    vm_compute in Hk. injection Hk as <- <- <-.
    vm_compute in Hkl. injection Hkl as <- <- <-.
    vm_compute in Em. injection Em as <-.
    vm_compute in Ev. injection Ev as <-.
    vm_compute in Eb. injection Eb as <-.
    split_and!;
      [etrans; [exact Hm|] | etrans; [exact Hv|] | etrans; [exact Hb|]];
      vm_compute; reflexivity.
  - destruct (proj1 (KL_gradient_is_accumulated (gpy := Cases.still))
                Cases.idle (Cases.cycled Cases.still)
                ltac:(vm_compute; reflexivity) ltac:(vm_compute; reflexivity))
      as (d0 & d1 & d2 & km & kv & kb & dm & dv & dg & bm & bv & bb
          & _ & _ & _ & Hk & _ & _ & _ & _ & _ & _ & _ & _ & _ & _ & Htwice).
    vm_compute in Hk. injection Hk as <- <- <-.
    destruct Htwice as (q2 & Hq2 & Hm2 & _);
      [split; [reflexivity | by vm_compute; repeat constructor] ..|].
    exists q2. split_and!.
    + vm_compute; reflexivity.
    + vm_compute; reflexivity.
    + exact Hq2.
    + etrans; [exact Hm2|]. vm_compute; reflexivity.
Defined.

(** ** The distributed session *)

Section Session.

Context {gpy : Collaborators}.

Lemma int32_1 : int32 1 = 1%Z.
Proof. reflexivity. Qed.

Lemma int32_m1 : int32 (-1) = (-1)%Z.
Proof. reflexivity. Qed.

(** Setting the parameters on rank 0. *)
Lemma set_params_on_root m comm p out inb :
  mpi_comm m = Some comm -> rank comm = 0%nat ->
  _set_params_transformed p {| self := m; sent := out; inbox := inb |} =
    Returned p
      {| self := SparseGP_set_params_transformed p m;
         sent := out ++ (if __IN_OPTIMIZATION__ m
                         then [Signal 1; Params p] else [Params p]);
         inbox := inb |}.
Proof.
  intros Hc Hr. unfold _set_params_transformed, Bcast_int32, Bcast_array, Bcast.
  unfold mbind, Proc_bind, get_self, modify_self, mret, Proc_ret.
  cbn [self sent inbox]. rewrite Hc, Hr. cbn [Nat.eqb andb].
  destruct (__IN_OPTIMIZATION__ m); cbn [self sent inbox andb].
  - by rewrite <- app_assoc.
  - done.
Qed.

(** Setting the parameters on a follower: the buffer is overwritten
    with the vector rank 0 broadcast, and that vector is applied. *)
Lemma set_params_on_follower m comm x p out rest :
  mpi_comm m = Some comm -> (0 < rank comm)%nat -> length p = length x ->
  _set_params_transformed x
    {| self := m; sent := out; inbox := Params p :: rest |} =
    Returned p
      {| self := SparseGP_set_params_transformed p m;
         sent := out; inbox := rest |}.
Proof.
  intros Hc Hr Hlen.
  unfold _set_params_transformed, Bcast_int32, Bcast_array, Bcast.
  unfold mbind, Proc_bind, get_self, modify_self, mret, Proc_ret.
  cbn [self sent inbox]. rewrite Hc.
  destruct (Nat.eqb_spec (rank comm) 0%nat) as [E|_]; [lia|].
  rewrite andb_false_r. cbn [self sent inbox fits].
  rewrite <- Hlen, Nat.eqb_refl. done.
Qed.

(** Without a communicator nothing is broadcast. *)
Lemma set_params_alone m p out inb :
  mpi_comm m = None ->
  _set_params_transformed p {| self := m; sent := out; inbox := inb |} =
    Returned p
      {| self := SparseGP_set_params_transformed p m;
         sent := out; inbox := inb |}.
Proof.
  intros Hc. unfold _set_params_transformed.
  unfold mbind, Proc_bind, get_self, modify_self, mret, Proc_ret.
  cbn [self sent inbox]. by rewrite Hc.
Qed.

(** C3, as the code has it: on rank 0 with a communicator, setting the
    parameter vector during an optimization broadcasts the continue
    signal 1 and then the vector; outside an optimization it broadcasts
    no signal, and the vector alone; either way the vector is then
    applied. *)
Theorem root_write_through m comm p out inb :
  mpi_comm m = Some comm -> rank comm = 0%nat ->
  (__IN_OPTIMIZATION__ m = true ->
     _set_params_transformed p {| self := m; sent := out; inbox := inb |} =
       Returned p {| self := SparseGP_set_params_transformed p m;
                     sent := out ++ [Signal 1; Params p]; inbox := inb |})
  /\ (__IN_OPTIMIZATION__ m = false ->
     _set_params_transformed p {| self := m; sent := out; inbox := inb |} =
       Returned p {| self := SparseGP_set_params_transformed p m;
                     sent := out ++ [Params p]; inbox := inb |}).
Proof.
  intros Hc Hr.
  split; intros Hopt; rewrite (set_params_on_root m comm) by done;
    by rewrite Hopt.
Qed.

(** One round of the follower's loop. *)
Lemma wait_loop_unfold fuel x flag :
  wait_loop fuel x flag =
    (m ← get_self;
     match mpi_comm m with
     | None => raise AttributeError
     | Some comm =>
         flag ← Bcast_int32 comm flag;
         if (flag =? 1)%Z then
           (x ← _set_params_transformed x;
            match fuel with
            | O => never_returns
            | S fuel' => wait_loop fuel' x flag
            end)
         else if (flag =? -1)%Z then mret tt
         else
           (modify_self (set_IN_OPTIMIZATION false);;
            raise (Exception "Unrecognizable flag for synchronization!"))
     end).
Proof. by destruct fuel. Qed.

(** The flag a follower receives. *)
Lemma follower_receives_flag m comm fuel x flag f out rest :
  mpi_comm m = Some comm -> (0 < rank comm)%nat ->
  wait_loop fuel x flag {| self := m; sent := out; inbox := Signal f :: rest |} =
    let s := {| self := m; sent := out; inbox := rest |} in
    if (f =? 1)%Z then
      (x ← _set_params_transformed x;
       match fuel with
       | O => never_returns
       | S fuel' => wait_loop fuel' x f
       end) s
    else if (f =? -1)%Z then Returned tt s
    else Raised (Exception "Unrecognizable flag for synchronization!")
           {| self := set_IN_OPTIMIZATION false m; sent := out; inbox := rest |}.
Proof.
  intros Hc Hr. rewrite wait_loop_unfold.
  unfold Bcast_int32, Bcast.
  unfold mbind, Proc_bind, mret, Proc_ret, get_self, modify_self, raise.
  cbn [self sent inbox]. rewrite Hc.
  destruct (Nat.eqb_spec (rank comm) 0%nat) as [E|_]; [lia|].
  cbn [fits self sent inbox].
  destruct (f =? 1)%Z; [done|].
  by destruct (f =? -1)%Z.
Qed.

(** C4: a follower in the wait loop of [optimize] that receives the
    signal 1 receives the parameter vector broadcast next, applies it
    and goes round the loop again; one that receives -1 leaves the loop
    and returns, and [optimize] with it; one that receives any other
    value raises the exception "Unrecognizable flag for
    synchronization!", having left the optimization. *)
Theorem follower_wait_loop m comm fuel x flag out rest :
  mpi_comm m = Some comm -> (0 < rank comm)%nat ->
  (forall p, length p = length x ->
     wait_loop (S fuel) x flag
       {| self := m; sent := out; inbox := Signal 1 :: Params p :: rest |} =
     wait_loop fuel p 1
       {| self := SparseGP_set_params_transformed p m;
          sent := out; inbox := rest |})
  /\ wait_loop fuel x flag
       {| self := m; sent := out; inbox := Signal (-1) :: rest |} =
     Returned tt {| self := m; sent := out; inbox := rest |}
  /\ optimize flag {| self := m; sent := out; inbox := Signal (-1) :: rest |} =
     Returned tt {| self := set_IN_OPTIMIZATION false m;
                    sent := out; inbox := rest |}
  /\ (forall f, f <> 1%Z -> f <> (-1)%Z ->
        wait_loop fuel x flag
          {| self := m; sent := out; inbox := Signal f :: rest |} =
        Raised (Exception "Unrecognizable flag for synchronization!")
          {| self := set_IN_OPTIMIZATION false m;
             sent := out; inbox := rest |})
  /\ (forall f, f <> 1%Z -> f <> (-1)%Z ->
        optimize flag
          {| self := m; sent := out; inbox := Signal f :: rest |} =
        Raised (Exception "Unrecognizable flag for synchronization!")
          {| self := set_IN_OPTIMIZATION false m;
             sent := out; inbox := rest |}).
Proof.
  intros Hc Hr.
  assert (Hopt : forall f,
    optimize flag {| self := m; sent := out; inbox := Signal f :: rest |} =
    match wait_loop (S (length rest))
            (SparseGP_get_params_transformed (set_IN_OPTIMIZATION true m)) flag
            {| self := set_IN_OPTIMIZATION true m; sent := out;
               inbox := Signal f :: rest |} with
    | Returned _ s' =>
        Returned tt {| self := set_IN_OPTIMIZATION false (self s');
                       sent := sent s'; inbox := inbox s' |}
    | Raised e s' => Raised e s'
    | Blocked s' => Blocked s'
    end).
  { intros f. unfold optimize.
    unfold mbind at 1 2 3, Proc_bind at 1 2 3, get_self, modify_self.
    cbn [self sent inbox set_IN_OPTIMIZATION mpi_comm]. rewrite Hc.
    destruct (Nat.eqb_spec (rank comm) 0%nat) as [E|_]; [lia|].
    destruct (Nat.ltb_spec 0%nat (rank comm)) as [_|E]; [|lia].
    unfold mbind at 1 2, Proc_bind at 1 2, get_inbox.
    cbn [self sent inbox length]. done. }
  split_and!.
  - intros p Hlen. rewrite (follower_receives_flag m comm) by done.
    cbv zeta. cbn [Z.eqb Pos.eqb].
    unfold mbind, Proc_bind.
    by rewrite (set_params_on_follower m comm) by done.
  - by rewrite (follower_receives_flag m comm) by done.
  - rewrite Hopt, (follower_receives_flag _ comm) by done. done.
  - intros f Hf1 Hfm1. rewrite (follower_receives_flag m comm) by done.
    cbv zeta.
    destruct (Z.eqb_spec f 1); [done|]. by destruct (Z.eqb_spec f (-1)).
  - intros f Hf1 Hfm1. rewrite Hopt, (follower_receives_flag _ comm) by done.
    cbv zeta.
    destruct (Z.eqb_spec f 1); [done|]. by destruct (Z.eqb_spec f (-1)).
Qed.

(** What a follower's parameter set does with the head of its inbox. *)
Lemma set_params_on_follower_cases m comm x out inb :
  mpi_comm m = Some comm -> (0 < rank comm)%nat ->
  _set_params_transformed x {| self := m; sent := out; inbox := inb |} =
    match inb with
    | Params p :: rest =>
        if (length x =? length p)%nat
        then Returned p {| self := SparseGP_set_params_transformed p m;
                           sent := out; inbox := rest |}
        else Blocked {| self := m; sent := out; inbox := inb |}
    | _ => Blocked {| self := m; sent := out; inbox := inb |}
    end.
Proof.
  intros Hc Hr.
  unfold _set_params_transformed, Bcast_int32, Bcast_array, Bcast.
  unfold mbind, Proc_bind, get_self, modify_self, mret, Proc_ret.
  cbn [self sent inbox]. rewrite Hc.
  destruct (Nat.eqb_spec (rank comm) 0%nat) as [E|_]; [lia|].
  rewrite andb_false_r. cbn [self sent inbox].
  destruct inb as [|[f|p] rest]; cbn [fits]; try done.
  by destruct (length x =? length p)%nat.
Qed.

(** A follower with nothing to receive waits, and so does one that is
    sent a vector where the flag is due. *)
Lemma follower_waits m comm fuel x flag out :
  mpi_comm m = Some comm -> (0 < rank comm)%nat ->
  wait_loop fuel x flag {| self := m; sent := out; inbox := [] |} =
    Blocked {| self := m; sent := out; inbox := [] |}.
Proof.
  intros Hc Hr. rewrite wait_loop_unfold.
  unfold Bcast_int32, Bcast.
  unfold mbind, Proc_bind, mret, Proc_ret, get_self.
  cbn [self sent inbox]. rewrite Hc.
  by destruct (Nat.eqb_spec (rank comm) 0%nat) as [E|_]; [lia|].
Qed.

Lemma follower_receives_vector m comm fuel x flag p out rest :
  mpi_comm m = Some comm -> (0 < rank comm)%nat ->
  wait_loop fuel x flag {| self := m; sent := out; inbox := Params p :: rest |} =
    Blocked {| self := m; sent := out; inbox := Params p :: rest |}.
Proof.
  intros Hc Hr. rewrite wait_loop_unfold.
  unfold Bcast_int32, Bcast.
  unfold mbind, Proc_bind, mret, Proc_ret, get_self.
  cbn [self sent inbox]. rewrite Hc.
  by destruct (Nat.eqb_spec (rank comm) 0%nat) as [E|_]; [lia|].
Qed.

(** As long as the base class leaves the communicator alone, a loop
    started with as much fuel as there are broadcasts in the inbox never
    uses it up: more fuel changes nothing. *)
Lemma wait_loop_fuel comm :
  (forall p m, mpi_comm (SparseGP_set_params_transformed p m) = mpi_comm m) ->
  (0 < rank comm)%nat ->
  forall n k x flag m out inb,
    mpi_comm m = Some comm ->
    length inb <= n -> length inb <= k ->
    wait_loop n x flag {| self := m; sent := out; inbox := inb |} =
    wait_loop k x flag {| self := m; sent := out; inbox := inb |}.
Proof.
  intros Hcomm Hr n.
  induction n as [|n IH]; intros k x flag m out inb Hc Hn Hk.
  - destruct inb; [|simpl in Hn; lia].
    by rewrite !(follower_waits m comm).
  - destruct inb as [|[f|p] rest].
    + by rewrite !(follower_waits m comm).
    + destruct k as [|k]; [simpl in Hk; lia|].
      rewrite !(follower_receives_flag m comm) by done. cbv zeta.
      destruct (f =? 1)%Z; [|done].
      unfold mbind, Proc_bind.
      rewrite (set_params_on_follower_cases m comm) by done.
      destruct rest as [|[f'|p] rest']; try done.
      destruct (length x =? length p)%nat; [|done].
      simpl in Hn, Hk. apply IH; [by rewrite Hcomm | lia | lia].
    + by rewrite !(follower_receives_vector m comm).
Qed.

(** X21: [optimize] on a follower is the wait loop between the two
    assignments of the flag, and the loop ends within as many rounds as
    there are broadcasts in its inbox: as long as the base class leaves
    the communicator alone, any bound on the rounds from the length of
    the inbox on gives the same outcome. *)
Lemma optimize_on_follower comm m flag out inb n :
  (forall p m, mpi_comm (SparseGP_set_params_transformed p m) = mpi_comm m) ->
  mpi_comm m = Some comm -> (0 < rank comm)%nat ->
  length inb <= n ->
  optimize flag {| self := m; sent := out; inbox := inb |} =
    (wait_loop n
       (SparseGP_get_params_transformed (set_IN_OPTIMIZATION true m)) flag;;
     modify_self (set_IN_OPTIMIZATION false))
      {| self := set_IN_OPTIMIZATION true m; sent := out; inbox := inb |}.
Proof.
  intros Hcomm Hc Hr Hn. unfold optimize.
  unfold mbind at 1 2 3, Proc_bind at 1 2 3, get_self, modify_self.
  cbn [self sent inbox set_IN_OPTIMIZATION mpi_comm]. rewrite Hc.
  destruct (Nat.eqb_spec (rank comm) 0%nat) as [E|_]; [lia|].
  destruct (Nat.ltb_spec 0%nat (rank comm)) as [_|E]; [|lia].
  unfold mbind, Proc_bind, get_inbox. cbn [self sent inbox].
  by rewrite (wait_loop_fuel comm Hcomm Hr (length inb) n).
Qed.

End Session.

(** ** The pickled state *)

Section Snapshot.

Context {gpy : Collaborators}.

(** Without a communicator the base state is kept, the handle set to
    [None]. *)
Lemma getstate_alone m :
  mpi_comm m = None ->
  __getstate__ m = Ok (<["mpi_comm" := PyNone]> (SparseGP_getstate m)).
Proof. intros Hc. unfold __getstate__. by rewrite Hc. Qed.

(** With a communicator, a base state without one of the slices stops
    the snapshot with [KeyError]. *)
Lemma getstate_missing_slice m comm :
  mpi_comm m = Some comm ->
  SparseGP_getstate m !! "Y_local" = None ->
  __getstate__ m = Raise (KeyError "Y_local").
Proof.
  intros Hc Hy. unfold __getstate__, delitem. rewrite Hc.
  rewrite lookup_insert_ne by done. by rewrite Hy.
Qed.

(** C9: for a model with a communicator whose base state holds the
    three partition entries, [__getstate__] returns a dictionary in
    which [mpi_comm] is [None], [Y_local], [X_local] and [Y_range] are
    absent, and every other key is as in the base state. *)
Theorem getstate_drops_the_session m comm :
  mpi_comm m = Some comm ->
  is_Some (SparseGP_getstate m !! "Y_local") ->
  is_Some (SparseGP_getstate m !! "X_local") ->
  is_Some (SparseGP_getstate m !! "Y_range") ->
  exists dc,
    __getstate__ m = Ok dc
    /\ dc !! "mpi_comm" = Some PyNone
    /\ dc !! "Y_local" = None
    /\ dc !! "X_local" = None
    /\ dc !! "Y_range" = None
    /\ (forall k : string,
          k <> "mpi_comm" -> k <> "Y_local" -> k <> "X_local" ->
          k <> "Y_range" ->
          dc !! k = SparseGP_getstate m !! k).
Proof.
  intros Hc [yl Hyl] [xl Hxl] [yr Hyr].
  exists (delete "Y_range" (delete "X_local" (delete "Y_local"
            (<["mpi_comm" := PyNone]> (SparseGP_getstate m))))).
  split_and!.
  - unfold __getstate__, delitem. rewrite Hc.
    rewrite lookup_insert_ne, Hyl by done. cbn [mbind res_bind].
    rewrite lookup_delete_ne, lookup_insert_ne, Hxl by done.
    cbn [mbind res_bind].
    rewrite !lookup_delete_ne, lookup_insert_ne, Hyr by done.
    done.
  - rewrite 3!lookup_delete_ne by done. apply lookup_insert_eq.
  - rewrite 2!lookup_delete_ne by done. apply lookup_delete_eq.
  - rewrite lookup_delete_ne by done. apply lookup_delete_eq.
  - apply lookup_delete_eq.
  - intros k H1 H2 H3 H4.
    rewrite 3!lookup_delete_ne by done. by apply lookup_insert_ne.
Qed.

End Snapshot.

(** ** The default construction *)

Section Defaults.

Context {gpy : Collaborators}.

(** X20: a model built without an inference method gets [VarDTC_minibatch],
    so that every recomputation cycle of it is the external engine's:
    [parameters_changed] itself subtracts no KL divergence and writes no
    gradient. *)
Lemma default_construction_is_dispatched a rnd m out inb :
  arg_inference_method a = None ->
  construct a rnd = Ok m ->
  inference_method m = VarDTC_minibatch (arg_mpi_comm a)
  /\ parameters_changed {| self := m; sent := out; inbox := inb |} =
       Returned tt {| self := update_gradients m (mpi_comm m);
                      sent := out; inbox := inb |}.
Proof.
  intros Hi Hm.
  apply construct_inv in Hm as (gamma & Zi & _ & _ & _ & _ & Hinf & _).
  unfold init_inference_method in Hinf. rewrite Hi in Hinf.
  split; [done|].
  unfold parameters_changed, dispatched.
  unfold mbind, Proc_bind, get_self, modify_self. cbn [self sent inbox].
  by rewrite Hinf.
Qed.

End Defaults.

(** ** The statements at concrete inputs *)

Lemma root_write_through_witness :
  let m := Toy.model (VarDTC_minibatch (Some Toy.root)) (Some Toy.root) true in
  sent (final (_set_params_transformed (gpy := Toy.collaborators)
                 [0.5; 0.5]%float (Toy.running m [])))
  = [Signal 1; Params [0.5; 0.5]%float].
Proof.
  cbv zeta. unfold Toy.running.
  rewrite (proj1 (root_write_through (gpy := Toy.collaborators)
                    (Toy.model (VarDTC_minibatch (Some Toy.root))
                       (Some Toy.root) true)
                    Toy.root [0.5; 0.5]%float [] [] eq_refl eq_refl) eq_refl).
  reflexivity.
Defined.

(** C3, as the specification states it, fails: rank 0 sets the
    parameter vector outside an optimization, and the vector is
    broadcast. *)
Lemma set_params_outside_optimization_broadcasts :
  let m := Toy.model (VarDTC_minibatch (Some Toy.root)) (Some Toy.root) false in
  let s := Toy.running m [] in
  let s' := final (_set_params_transformed (gpy := Toy.collaborators)
                     [0.5; 0.5]%float s) in
  mpi_comm m = Some Toy.root
  /\ rank Toy.root = 0%nat
  /\ __IN_OPTIMIZATION__ m = false
  /\ sent s' = [Params [0.5; 0.5]%float]
  /\ sent s' <> sent s.
Proof. cbv zeta. by split_and!. Qed.

Lemma follower_wait_loop_witness :
  let m := Toy.model (VarDTC_minibatch (Some Toy.follower))
             (Some Toy.follower) true in
  let s := Toy.running m [Signal 1; Params [1; 2]%float; Signal (-1)] in
  exists s',
    wait_loop (gpy := Toy.collaborators) 3 [0.25; 0.75]%float 0 s
      = Returned tt s'
    /\ param_array (self s') = [1; 2]%float
    /\ inbox s' = [].
Proof.
  cbv zeta. eexists. split.
  - unfold Toy.running.
    rewrite (proj1 (follower_wait_loop (gpy := Toy.collaborators)
                      (Toy.model (VarDTC_minibatch (Some Toy.follower))
                         (Some Toy.follower) true)
                      Toy.follower 2 [0.25; 0.75]%float 0 [] [Signal (-1)]
                      eq_refl ltac:(cbn; lia))
               [1; 2]%float eq_refl).
    reflexivity.
  - split; reflexivity.
Defined.

Lemma getstate_drops_the_session_witness :
  let m := set_partition (Toy.observations 1 3)
             (slice_posterior 0 1
                (X (Toy.model (VarDTC_minibatch (Some Toy.follower))
                      (Some Toy.follower) false)))
             (0, 1)%nat [1; 1; 0]%nat
             (Toy.model (VarDTC_minibatch (Some Toy.follower))
                (Some Toy.follower) false) in
  exists dc,
    __getstate__ (gpy := Toy.collaborators) m = Ok dc
    /\ dc !! "mpi_comm" = Some PyNone
    /\ dc !! "Y_local" = None
    /\ dc !! "Y" = Some (PyArray (Toy.observations 2 3)).
Proof.
  cbv zeta.
  destruct (getstate_drops_the_session (gpy := Toy.collaborators)
              (set_partition (Toy.observations 1 3)
                 (slice_posterior 0 1
                    (X (Toy.model (VarDTC_minibatch (Some Toy.follower))
                          (Some Toy.follower) false)))
                 (0, 1)%nat [1; 1; 0]%nat
                 (Toy.model (VarDTC_minibatch (Some Toy.follower))
                    (Some Toy.follower) false))
              Toy.follower eq_refl
              ltac:(by eexists) ltac:(by eexists) ltac:(by eexists))
    as (dc & Hdc & Hcomm & Hyl & _ & _ & Hrest).
  exists dc. split_and!; [done..|].
  rewrite Hrest by done. reflexivity.
Defined.

(** The scripted session of the specification: rank 0 sets the
    parameters twice and stops; a follower fed what rank 0 broadcast
    applies the same two vectors and returns. *)
Example root_session :
  sent (final (optimize (gpy := Toy.collaborators) 0
                 (Toy.running
                    (Toy.model (VarDTC_minibatch (Some Toy.root))
                       (Some Toy.root) false) [])))
  = [Signal 1; Params [0.5; 0.5]%float;
     Signal 1; Params [1; 2]%float; Signal (-1)].
Proof. reflexivity. Qed.

Example follower_session :
  exists s',
    optimize (gpy := Toy.collaborators) 7
      (Toy.running
         (Toy.model (VarDTC_minibatch (Some Toy.follower))
            (Some Toy.follower) false)
         [Signal 1; Params [0.5; 0.5]%float;
          Signal 1; Params [1; 2]%float; Signal (-1)])
    = Returned tt s'
    /\ param_array (self s') = [1; 2]%float
    /\ __IN_OPTIMIZATION__ (self s') = false
    /\ inbox s' = [].
Proof. eexists. by split_and!. Qed.

Example follower_protocol_violation :
  exists s',
    optimize (gpy := Toy.collaborators) 7
      (Toy.running
         (Toy.model (VarDTC_minibatch (Some Toy.follower))
            (Some Toy.follower) false)
         [Signal 1; Params [0.5; 0.5]%float; Signal 5])
    = Raised (Exception "Unrecognizable flag for synchronization!") s'
    /\ param_array (self s') = [0.5; 0.5]%float
    /\ __IN_OPTIMIZATION__ (self s') = false.
Proof. eexists. by split_and!. Qed.

(** * Further properties of the code *)

(** ** The constructor's checks and defaults *)

Section ConstructorChecks.

Context {gpy : Collaborators}.

Open Scope float_scope.

(** The steps of the constructor once [gamma] and [Z] are there. *)
Lemma construct_eq a rnd gamma Zi :
  init_gamma (init_latent a).1 (arg_input_dim a) rnd (arg_group_spike a)
    = Ok gamma ->
  init_Z a rnd (init_latent a).1 = Ok Zi ->
  exists m,
    construct a rnd = Ok m
    /\ X m = new_SpikeAndSlabPosterior (init_latent a).1
               (init_X_variance a rnd (init_latent a).1) gamma
    /\ Z m = Zi
    /\ Y m = arg_Y a
    /\ kern m = (if arg_group_spike a
                 then set_group_spike_prob (init_kernel a (init_latent a).2)
                 else init_kernel a (init_latent a).2)
    /\ variational_prior m =
         {| pi := init_pi (arg_input_dim a);
            prior_group_spike_prob := arg_group_spike a |}
    /\ likelihood m = init_likelihood a
    /\ Y_local m = None /\ X_local m = None /\ Y_range m = None
    /\ Y_list m = None.
Proof.
  intros Hg HZ. unfold construct.
  destruct (init_latent a) as [X0 fracs]; cbn [fst snd] in *.
  rewrite Hg. cbn [mbind res_bind]. rewrite HZ. cbn [mbind res_bind].
  destruct (SparseGP_init _ _ _ _ _ _ _) as [[gd ev] pa].
  eexists. split; [reflexivity|]. cbn. by split_and!.
Qed.

Lemma construct_inv_full a rnd m :
  construct a rnd = Ok m ->
  exists gamma Zi,
    init_gamma (init_latent a).1 (arg_input_dim a) rnd (arg_group_spike a)
      = Ok gamma
    /\ init_Z a rnd (init_latent a).1 = Ok Zi
    /\ Z m = Zi
    /\ kern m = (if arg_group_spike a
                 then set_group_spike_prob (init_kernel a (init_latent a).2)
                 else init_kernel a (init_latent a).2)
    /\ variational_prior m =
         {| pi := init_pi (arg_input_dim a);
            prior_group_spike_prob := arg_group_spike a |}
    /\ Y m = arg_Y a
    /\ Y_local m = None /\ X_local m = None /\ Y_range m = None
    /\ Y_list m = None.
Proof.
  intros Hm.
  destruct (construct_inv a rnd m Hm) as (gamma & Zi & Hg & HZ & _).
  destruct (construct_eq a rnd gamma Zi Hg HZ)
    as (m' & Hm' & _ & HZm & HY & Hk & Hp & _ & H1 & H2 & H3 & H4).
  rewrite Hm in Hm'. injection Hm' as <-.
  exists gamma, Zi. by split_and!.
Qed.

(** X1: a latent matrix [X] passed with a number of columns that
    [input_dim] neither equals nor, being 1, broadcasts to stops the
    constructor with [ValueError] (line 48), whatever else is passed. *)
Theorem latent_width_mismatch_raises a rnd X0 :
  arg_X a = Some X0 ->
  arg_input_dim a <> (shape X0).2 ->
  arg_input_dim a <> 1%nat ->
  construct a rnd = Raise ValueError.
Proof.
  intros HX Hne H1. unfold construct, init_latent. rewrite HX.
  rewrite init_gamma_eq. unfold axis_fits.
  destruct (Nat.eqb_spec (arg_input_dim a) (shape X0).2); [done|].
  by destruct (Nat.eqb_spec (arg_input_dim a) 1%nat).
Qed.

(** X2: with [input_dim = 1] a latent matrix of any width is accepted:
    without grouping and with the default [Z] the constructor returns a
    model whose [binary_prob] has the shape of [X] while [pi] has one
    entry. *)
Theorem input_dim_one_accepts_any_width a rnd X0 :
  arg_X a = Some X0 ->
  arg_input_dim a = 1%nat ->
  arg_group_spike a = false ->
  arg_Z a = None ->
  exists m,
    construct a rnd = Ok m
    /\ shape (values (binary_prob (X m))) = shape X0
    /\ length (pi (variational_prior m)) = 1%nat.
Proof.
  intros HX Hd Hgs HZ.
  assert (Hl : init_latent a = (X0, ones 1)).
  { unfold init_latent. by rewrite HX, Hd. }
  destruct (construct_eq a rnd (full_of (dtype X0) (shape X0) 0.5)
              (slice_rows 0 (arg_num_inducing a)
                 (NDArray (dtype X0) (shape X0) (permutation rnd (rows X0)))))
    as (m & Hm & HXm & _ & _ & _ & Hp & _).
  - rewrite Hl, Hd, Hgs, init_gamma_eq; cbn [fst].
    unfold axis_fits. by rewrite orb_true_r.
  - rewrite Hl; cbn [fst]. unfold init_Z. rewrite HZ.
    cbn [slice_rows shape snd]. by rewrite Nat.eqb_refl.
  - exists m. rewrite HXm, Hp, Hd. by split_and!.
Qed.

(** X3: inducing inputs passed with another number of columns than the
    latent matrix stop the constructor with [AssertionError] (line 58),
    once [gamma] is built. *)
Theorem inducing_width_mismatch_raises a rnd Zi gamma :
  arg_Z a = Some Zi ->
  (shape Zi).2 <> (shape (init_latent a).1).2 ->
  init_gamma (init_latent a).1 (arg_input_dim a) rnd (arg_group_spike a)
    = Ok gamma ->
  construct a rnd = Raise AssertionError.
Proof.
  intros HZ Hne Hg. unfold construct.
  destruct (init_latent a) as [X0 fracs]; cbn [fst] in *.
  rewrite Hg. cbn [mbind res_bind]. unfold init_Z. rewrite HZ.
  by destruct (Nat.eqb_spec (shape Zi).2 (shape X0).2).
Qed.

(** X4: the default inducing inputs never fail the assertion of line
    58: when [np.random.permutation] returns a permutation of the rows
    of [X], the constructor does not stop with [AssertionError], and
    once [gamma] is built it returns a model whose [Z] holds
    [min(num_inducing, N)] rows, each of them a row of [X], and has the
    columns of [X]. *)
Theorem default_inducing_inputs a rnd :
  arg_Z a = None ->
  permutation rnd (rows (init_latent a).1) ≡ₚ rows (init_latent a).1 ->
  construct a rnd <> Raise AssertionError
  /\ (forall gamma,
        init_gamma (init_latent a).1 (arg_input_dim a) rnd (arg_group_spike a)
          = Ok gamma ->
        exists m,
          construct a rnd = Ok m
          /\ length (rows (Z m))
             = Nat.min (arg_num_inducing a) (length (rows (init_latent a).1))
          /\ shape (Z m)
             = (Nat.min (arg_num_inducing a)
                  (length (rows (init_latent a).1)),
                (shape (init_latent a).1).2)
          /\ (forall r, r ∈ rows (Z m) -> r ∈ rows (init_latent a).1)).
Proof.
  intros HZ Hperm.
  assert (HZi : init_Z a rnd (init_latent a).1 =
                  Ok (slice_rows 0 (arg_num_inducing a)
                        (NDArray (dtype (init_latent a).1)
                           (shape (init_latent a).1)
                           (permutation rnd (rows (init_latent a).1))))).
  { unfold init_Z. rewrite HZ. cbn [slice_rows shape snd].
    by rewrite Nat.eqb_refl. }
  split.
  - destruct (init_gamma (init_latent a).1 (arg_input_dim a) rnd
                (arg_group_spike a)) as [gamma|e] eqn:Hg.
    + destruct (construct_eq a rnd _ _ Hg HZi) as (m & -> & _). done.
    + unfold construct. destruct (init_latent a) as [X0 fracs]; cbn [fst] in *.
      rewrite Hg. cbn [mbind res_bind]. intros [= ->].
      rewrite init_gamma_eq in Hg.
      repeat match type of Hg with
             | (if ?b then _ else _) = _ => destruct b; try done
             end.
  - intros gamma Hg.
    destruct (construct_eq a rnd _ _ Hg HZi) as (m & Hm & _ & HZm & _).
    exists m. split; [done|]. rewrite HZm.
    unfold slice_rows. cbn [rows shape snd].
    rewrite Nat.sub_0_r, drop_0, length_take, (Permutation_length Hperm).
    split_and!; [done..|].
    intros r Hr. rewrite <- Hperm.
    apply elem_of_take in Hr as (i & Hi & _). by eapply list_elem_of_lookup_2.
Qed.

(** X5: the grouping flag is mirrored: the constructed model, its
    prior and its kernel carry [group_spike]; a kernel passed in keeps
    its other attributes, and without grouping it is kept as it is. *)
Theorem group_flag_is_mirrored a rnd m k :
  arg_kernel a = Some k ->
  construct a rnd = Ok m ->
  group_spike m = arg_group_spike a
  /\ prior_group_spike_prob (variational_prior m) = arg_group_spike a
  /\ ARD (kern m) = ARD k
  /\ lengthscale (kern m) = lengthscale k
  /\ kern_group_spike_prob (kern m)
     = (arg_group_spike a || kern_group_spike_prob k).
Proof.
  intros Hk Hm.
  pose proof (construct_inv a rnd m Hm)
    as (_ & _ & _ & _ & _ & _ & _ & _ & Hgs & _).
  apply construct_inv_full in Hm as (_ & _ & _ & _ & _ & Hkern & Hp & _).
  rewrite Hgs, Hkern, Hp. unfold init_kernel. rewrite Hk.
  by destruct (arg_group_spike a).
Qed.

(** X6: for a model built with a kernel without ARD, the input
    sensitivities are the prior's inclusion probabilities, which the
    constructor has set to 0.5 each: [input_dim] entries 0.5. *)
Theorem input_sensitivity_without_ARD a rnd m k :
  arg_kernel a = Some k ->
  ARD k = false ->
  construct a rnd = Ok m ->
  input_sensitivity m = replicate (arg_input_dim a) 0.5.
Proof.
  intros Hk HARD Hm.
  apply construct_inv_full in Hm as (_ & _ & _ & _ & _ & Hkern & Hp & _).
  unfold input_sensitivity. rewrite Hkern, Hp. unfold init_kernel.
  rewrite Hk. by destruct (arg_group_spike a); cbn; rewrite HARD.
Qed.

End ConstructorChecks.

(** ** The order of binary64 numbers *)

Section FloatOrder.

Open Scope float_scope.

Lemma SFcompare_antisym x y :
  SFcompare y x = option_map CompOpp (SFcompare x y).
Proof.
  destruct x as [sx|sx| |sx mx ex], y as [sy|sy| |sy my ey]; simpl;
    try done;
    try (by repeat match goal with s : bool |- _ => destruct s end).
  destruct sx, sy; try done; rewrite (Z.compare_antisym ex ey);
    destruct (ex ?= ey)%Z; simpl; try done; f_equal.
  - f_equal. symmetry. apply (Pos.compare_cont_antisym mx my Eq).
  - symmetry. apply (Pos.compare_cont_antisym mx my Eq).
Qed.

Lemma not_nan_compare x : is_nan x = false -> Prim2SF x <> S754_nan.
Proof.
  unfold is_nan. rewrite FloatAxioms.eqb_spec. unfold SFeqb. intros Hx E.
  by rewrite E in Hx.
Qed.

(** Of two numbers, one that is not below the other is at least it. *)
Lemma not_ltb_leb x y :
  is_nan x = false -> is_nan y = false ->
  (x <? y) = false -> (y <=? x) = true.
Proof.
  intros Hx%not_nan_compare Hy%not_nan_compare.
  rewrite FloatAxioms.ltb_spec, FloatAxioms.leb_spec. unfold SFltb, SFleb.
  rewrite (SFcompare_antisym (Prim2SF x) (Prim2SF y)).
  destruct (SFcompare (Prim2SF x) (Prim2SF y)) as [[]|] eqn:E; try done.
  destruct (Prim2SF x), (Prim2SF y); done.
Qed.

Lemma leb_not_ltb x y : (x <=? y) = true -> (y <? x) = false.
Proof.
  rewrite FloatAxioms.ltb_spec, FloatAxioms.leb_spec. unfold SFltb, SFleb.
  rewrite (SFcompare_antisym (Prim2SF x) (Prim2SF y)).
  by destruct (SFcompare (Prim2SF x) (Prim2SF y)) as [[]|].
Qed.

End FloatOrder.

(** ** The clamps of the constructor *)

Section Clamps.

Open Scope float_scope.

(** Lines 49-50 on one entry of an array of the given dtype. *)
Definition clamp_entry (t : scalar_type) (x : float) : float :=
  let x1 := if 1 - 1e-9 <? x then astype t (1 - 1e-9) else x in
  if x1 <? 1e-9 then astype t 1e-9 else x1.

Lemma gamma_clamped_rows g :
  gamma_clamped g = map_entries (clamp_entry (dtype g)) g.
Proof.
  unfold gamma_clamped, setitem_mask, map_entries, clamp_entry;
    cbn [rows shape dtype].
  rewrite map_map. f_equal. apply map_ext; intros r. by rewrite map_map.
Qed.

Lemma map_entries_fixed f g :
  all_entries (fun x => f x = x) g -> map_entries f g = g.
Proof.
  destruct g as [t sh rs].
  unfold all_entries, map_entries; cbn [rows shape dtype].
  intros Hall. f_equal. induction Hall as [|r rs Hr _ IH]; [done|].
  cbn [map]. rewrite IH. f_equal.
  induction Hr as [|x r Hx _ IHr]; [done|]. cbn [map]. by rewrite Hx, IHr.
Qed.

Lemma clamp_entry_twice t x : clamp_entry t (clamp_entry t x) = clamp_entry t x.
Proof.
  unfold clamp_entry. cbv zeta.
  destruct (1 - 1e-9 <? x) eqn:Ehi; [by destruct t; vm_compute|].
  destruct (x <? 1e-9) eqn:Elo; [by destruct t; vm_compute|].
  by rewrite Ehi, Elo.
Qed.

(** X7: the clamps of lines 49-50 keep the shape and the dtype; in a
    [float64] array they leave every number within [[1e-9, 1 - 1e-9]]
    and only a NaN outside it, while an integer array keeps of the two
    bounds their integer part, 0; they change nothing when applied
    again, and change no array whose entries are within the interval
    already. *)
Theorem clamps_bound_every_number g :
  shape (gamma_clamped g) = shape g
  /\ dtype (gamma_clamped g) = dtype g
  /\ (dtype g = float64 ->
      all_entries (fun x => is_nan x = true \/ within_eps x) (gamma_clamped g))
  /\ (dtype g = int64 ->
      all_entries (fun x => is_nan x = true \/ x = 0 \/ within_eps x)
        (gamma_clamped g))
  /\ gamma_clamped (gamma_clamped g) = gamma_clamped g
  /\ (all_entries within_eps g -> gamma_clamped g = g).
Proof.
  split_and!.
  - done.
  - done.
  - intros Ht. rewrite gamma_clamped_rows, Ht.
    apply all_entries_map_entries; intros x.
    unfold clamp_entry; cbv zeta; cbn [astype].
    destruct (1 - 1e-9 <? x) eqn:Ehi.
    + right. by vm_compute.
    + destruct (x <? 1e-9) eqn:Elo; [right; by vm_compute|].
      destruct (is_nan x) eqn:Enan; [by left | right]. split.
      * by apply not_ltb_leb.
      * by apply not_ltb_leb.
  - intros Ht. rewrite gamma_clamped_rows, Ht.
    apply all_entries_map_entries; intros x.
    unfold clamp_entry; cbv zeta; cbn [astype].
    destruct (1 - 1e-9 <? x) eqn:Ehi.
    + right; left. by vm_compute.
    + destruct (x <? 1e-9) eqn:Elo; [right; left; by vm_compute|].
      destruct (is_nan x) eqn:Enan; [by left | right; right]. split.
      * by apply not_ltb_leb.
      * by apply not_ltb_leb.
  - rewrite (gamma_clamped_rows (gamma_clamped g)).
    apply map_entries_fixed. rewrite gamma_clamped_rows.
    cbn [map_entries dtype].
    apply (all_entries_map_entries
             (fun x => clamp_entry (dtype g) x = x) (clamp_entry (dtype g)) g).
    intros x. apply clamp_entry_twice.
  - intros Hin. rewrite gamma_clamped_rows. apply map_entries_fixed.
    unfold all_entries in *.
    eapply Forall_impl; [exact Hin|]. intros r Hr; cbv beta in *.
    eapply Forall_impl; [exact Hr|]. intros x [Hlo Hhi].
    unfold clamp_entry; cbv beta zeta.
    by rewrite (leb_not_ltb _ _ Hhi), (leb_not_ltb _ _ Hlo).
Qed.

End Clamps.

(** ** The constructor in a distributed run *)

Section ConstructorSession.

Context {gpy : Collaborators}.

Lemma init_unfold a rnd m incoming :
  construct a rnd = Ok m ->
  __init__ a rnd incoming
  = Ok (init_mpi {| self := m; sent := []; inbox := incoming |}).
Proof. intros Hm. unfold __init__. by rewrite Hm. Qed.

(** X8: on rank 0 the constructor keeps its block of the observations
    and of the posterior, [Y[Y_start:Y_end]] and [X[Y_start:Y_end]],
    with the bounds and the partition table, then broadcasts the
    parameter array, and nothing else; what was sent to it stays
    unread. *)
Theorem constructor_on_root a rnd m comm incoming Y_start Y_end Y_list0 :
  construct a rnd = Ok m ->
  arg_mpi_comm a = Some comm ->
  rank comm = 0%nat ->
  divide_data (shape (Y m)).1 comm = (Y_start, Y_end, Y_list0) ->
  __init__ a rnd incoming =
    Ok (Returned tt
          {| self := set_partition (slice_rows Y_start Y_end (Y m))
                       (slice_posterior Y_start Y_end (X m))
                       (Y_start, Y_end) Y_list0 m;
             sent := [Params (param_array m)];
             inbox := incoming |}).
Proof.
  intros Hm Hc Hr Hd. rewrite (init_unfold a rnd m) by done. f_equal.
  apply construct_inv in Hm as (_ & _ & _ & _ & _ & _ & _ & Hcm & _).
  unfold init_mpi, Bcast_array, Bcast.
  unfold mbind, Proc_bind, get_self, modify_self, mret, Proc_ret.
  cbn [self sent inbox]. rewrite Hcm, Hc, Hd.
  cbn [self sent inbox set_partition param_array]. rewrite Hr.
  by cbn.
Qed.


End ConstructorSession.

(** ** The gradient slots *)

Section Gradients.

Context {gpy : Collaborators}.

(** X11: when the base computation leaves one of the three statistics
    out of the gradient dictionary, the cycle stops at line 110 with
    [KeyError] for the first one missing, in the order [dL_dpsi0],
    [dL_dpsi1], [dL_dpsi2]; by then the evidence holds the KL
    correction, and the posterior is as the base computation left
    it. *)
Theorem missing_statistic_raises s :
  dispatched (self s) = false ->
  let m1 := SparseGP_parameters_changed (self s) in
  let stopped k :=
    parameters_changed s =
      Raised (KeyError k)
        {| self := set_log_marginal_likelihood
                     (_log_marginal_likelihood m1
                      - KL_divergence (variational_prior m1) (X m1)) m1;
           sent := sent s; inbox := inbox s |} in
  (grad_dict m1 !! "dL_dpsi0" = None -> stopped "dL_dpsi0")
  /\ (forall d0,
        grad_dict m1 !! "dL_dpsi0" = Some d0 ->
        grad_dict m1 !! "dL_dpsi1" = None -> stopped "dL_dpsi1")
  /\ (forall d0 d1,
        grad_dict m1 !! "dL_dpsi0" = Some d0 ->
        grad_dict m1 !! "dL_dpsi1" = Some d1 ->
        grad_dict m1 !! "dL_dpsi2" = None -> stopped "dL_dpsi2")
  /\ (grad_dict m1 !! "dL_dpsi0" = None
      \/ grad_dict m1 !! "dL_dpsi1" = None
      \/ grad_dict m1 !! "dL_dpsi2" = None ->
      X (self (final (parameters_changed s))) = X m1).
Proof.
  intros Hd m1 stopped. subst stopped. cbv beta.
  rewrite (parameters_changed_cycle s Hd).
  cbv zeta. fold m1. unfold getitem. split_and!.
  - by intros ->.
  - by intros d0 -> ->.
  - by intros d0 d1 -> -> ->.
  - intros Hmiss.
    destruct (grad_dict m1 !! "dL_dpsi0") as [d0|] eqn:E0; [|done].
    destruct (grad_dict m1 !! "dL_dpsi1") as [d1|] eqn:E1; [|done].
    destruct (grad_dict m1 !! "dL_dpsi2") as [d2|] eqn:E2; [|done].
    by destruct Hmiss as [?|[?|?]].
Qed.

(** X12: however a cycle that is not handed to the external engine
    ends, it has touched nothing but the evidence and the posterior:
    the channel and every other attribute are as the base computation
    left them. *)
Theorem cycle_frame s :
  dispatched (self s) = false ->
  let m1 := SparseGP_parameters_changed (self s) in
  let s' := final (parameters_changed s) in
  sent s' = sent s /\ inbox s' = inbox s
  /\ mpi_comm (self s') = mpi_comm m1
  /\ __IN_OPTIMIZATION__ (self s') = __IN_OPTIMIZATION__ m1
  /\ variational_prior (self s') = variational_prior m1
  /\ kern (self s') = kern m1
  /\ Z (self s') = Z m1
  /\ Y (self s') = Y m1
  /\ inference_method (self s') = inference_method m1
  /\ grad_dict (self s') = grad_dict m1
  /\ param_array (self s') = param_array m1.
Proof.
  intros Hd m1. rewrite (parameters_changed_cycle s Hd).
  cbv zeta. fold m1.
  destruct (getitem _ "dL_dpsi0") as [d0|e]; [|by split_and!].
  destruct (getitem _ "dL_dpsi1") as [d1|e]; [|by split_and!].
  destruct (getitem _ "dL_dpsi2") as [d2|e]; [|by split_and!].
  by destruct (update_gradients_KL _ _) as [q'|e].
Qed.

End Gradients.

(** ** More on the distributed session *)

Section SessionScripts.

Context {gpy : Collaborators}.

(** X13: on a follower, setting the parameters never broadcasts
    anything; it returns only with the vector rank 0 broadcast, of the
    length of the buffer, and then that vector is applied; when it
    blocks or fails the model is unchanged. *)
Theorem follower_applies_only_what_it_receives m comm x out inb :
  mpi_comm m = Some comm -> (0 < rank comm)%nat ->
  let o := _set_params_transformed x
             {| self := m; sent := out; inbox := inb |} in
  sent (final o) = out
  /\ (forall p s',
        o = Returned p s' ->
        exists rest,
          inb = Params p :: rest
          /\ length x = length p
          /\ s' = {| self := SparseGP_set_params_transformed p m;
                     sent := out; inbox := rest |})
  /\ ((forall p s', o <> Returned p s') -> self (final o) = m).
Proof.
  intros Hc Hr o. subst o.
  rewrite (set_params_on_follower_cases m comm) by done.
  destruct inb as [|[f|p] rest]; cbn [final sent self].
  - by split_and!.
  - by split_and!.
  - destruct (Nat.eqb_spec (length x) (length p)) as [Hlen|Hlen];
      cbn [final sent self].
    + split_and!; [done| |].
      * intros p' s' [= <- <-]. by exists rest.
      * intros Hno. exfalso. by eapply Hno.
    + by split_and!.
Qed.

(** [optimize] ends with the assignment of line 171. *)
Lemma optimize_unfold flag s :
  optimize flag s =
    match
      (m ← get_self;
       match mpi_comm m with
       | None => SparseGP_optimize _set_params_transformed
       | Some comm =>
           if (rank comm =? 0)%nat then
             (SparseGP_optimize _set_params_transformed;;
              m ← get_self;
              match mpi_comm m with
              | Some comm => Bcast_int32 comm (int32 (-1));; mret tt
              | None => raise AttributeError
              end)
           else if (0 <? rank comm)%nat then
             (m ← get_self;
              let x := SparseGP_get_params_transformed m in
              pending ← get_inbox;
              wait_loop (length pending) x flag)
           else mret tt
       end)
        {| self := set_IN_OPTIMIZATION true (self s);
           sent := sent s; inbox := inbox s |}
    with
    | Returned _ s' =>
        Returned tt {| self := set_IN_OPTIMIZATION false (self s');
                       sent := sent s'; inbox := inbox s' |}
    | Raised e s' => Raised e s'
    | Blocked s' => Blocked s'
    end.
Proof. reflexivity. Qed.

(** X14: [optimize] never returns with the session flag set: whenever
    it returns, on any rank or without a communicator,
    [__IN_OPTIMIZATION__] is [False]. *)
Theorem optimize_returns_with_flag_cleared flag s s' :
  optimize flag s = Returned tt s' ->
  __IN_OPTIMIZATION__ (self s') = false.
Proof.
  rewrite optimize_unfold.
  match goal with
  | |- match ?o with _ => _ end = _ -> _ => destruct o as [u s1|e s1|s1]
  end; [|done..].
  by intros [= <-].
Qed.

(** X15: on rank 0 the optimizer runs with the session flag set. When
    it returns, the stop signal -1 is the last broadcast and the flag is
    cleared; when it raises, [optimize] raises the same exception,
    broadcasts no stop signal and leaves the flag as the optimizer left
    it. *)
Theorem root_optimize m comm flag out inb :
  mpi_comm m = Some comm -> rank comm = 0%nat ->
  let s1 := {| self := set_IN_OPTIMIZATION true m;
               sent := out; inbox := inb |} in
  (forall s2 comm2,
      SparseGP_optimize _set_params_transformed s1 = Returned tt s2 ->
      mpi_comm (self s2) = Some comm2 -> rank comm2 = 0%nat ->
      optimize flag {| self := m; sent := out; inbox := inb |} =
        Returned tt {| self := set_IN_OPTIMIZATION false (self s2);
                       sent := sent s2 ++ [Signal (-1)];
                       inbox := inbox s2 |})
  /\ (forall e s2,
        SparseGP_optimize _set_params_transformed s1 = Raised e s2 ->
        optimize flag {| self := m; sent := out; inbox := inb |}
          = Raised e s2).
Proof.
  intros Hc Hr s1.
  assert (Hrun :
    optimize flag {| self := m; sent := out; inbox := inb |} =
    match SparseGP_optimize _set_params_transformed s1 with
    | Returned _ s2 =>
        match mpi_comm (self s2) with
        | Some comm2 =>
            match Bcast_int32 comm2 (int32 (-1)) s2 with
            | Returned _ s3 =>
                Returned tt {| self := set_IN_OPTIMIZATION false (self s3);
                               sent := sent s3; inbox := inbox s3 |}
            | Raised e s3 => Raised e s3
            | Blocked s3 => Blocked s3
            end
        | None => Raised AttributeError s2
        end
    | Raised e s2 => Raised e s2
    | Blocked s2 => Blocked s2
    end).
  { rewrite optimize_unfold. cbn [self sent inbox].
    unfold mbind at 1, Proc_bind at 1, get_self at 1.
    cbn [self set_IN_OPTIMIZATION mpi_comm]. rewrite Hc, Hr.
    cbn [Nat.eqb]. unfold mbind at 1, Proc_bind at 1. fold s1.
    generalize (SparseGP_optimize _set_params_transformed s1).
    intros [[] s2|e s2|s2]; [|done..].
    unfold mbind at 1, Proc_bind at 1, get_self at 1.
    destruct (mpi_comm (self s2)) as [comm2|]; [|done].
    unfold mbind, Proc_bind, mret, Proc_ret.
    generalize (Bcast_int32 comm2 (int32 (-1)) s2).
    by intros [f s3|e s3|s3]. }
  split.
  - intros s2 comm2 Hs2 Hc2 Hr2. rewrite Hrun, Hs2, Hc2.
    unfold Bcast_int32, Bcast, mbind, Proc_bind. by rewrite Hr2.
  - intros e s2 Hs2. by rewrite Hrun, Hs2.
Qed.

(** Rank 0 setting the vectors of an optimizer one after the other. *)
Lemma root_sets_each comm :
  (forall p m, mpi_comm (SparseGP_set_params_transformed p m) = mpi_comm m) ->
  (forall p m, __IN_OPTIMIZATION__ (SparseGP_set_params_transformed p m)
               = __IN_OPTIMIZATION__ m) ->
  rank comm = 0%nat ->
  forall ps m out inb,
    mpi_comm m = Some comm -> __IN_OPTIMIZATION__ m = true ->
    optimizer_steps ps _set_params_transformed
      {| self := m; sent := out; inbox := inb |} =
    Returned tt {| self := apply_each ps m;
                   sent := out ++ write_through_log ps; inbox := inb |}.
Proof.
  intros Hcomm Hflag Hr ps.
  induction ps as [|p ps IH]; intros m out inb Hc Hopt.
  - cbn. by rewrite app_nil_r.
  - cbn [optimizer_steps foldr]. unfold mbind at 1, Proc_bind at 1.
    rewrite (set_params_on_root m comm) by done. rewrite Hopt.
    fold (optimizer_steps ps _set_params_transformed).
    rewrite IH by (by rewrite ?Hcomm, ?Hflag).
    cbn [apply_each foldl write_through_log flat_map].
    by rewrite <- app_assoc.
Qed.

(** X16: the broadcasts of a whole optimization on rank 0. When the
    optimizer sets the vectors [ps] in turn and the base class leaves
    the communicator and the session flag alone, [optimize] broadcasts,
    for each vector, the signal 1 and the vector, and at the end the
    signal -1; it returns with every vector applied in order. *)
Theorem root_session_log comm ps m flag out inb :
  (forall p m, mpi_comm (SparseGP_set_params_transformed p m) = mpi_comm m) ->
  (forall p m, __IN_OPTIMIZATION__ (SparseGP_set_params_transformed p m)
               = __IN_OPTIMIZATION__ m) ->
  (forall set_params, SparseGP_optimize set_params
                      = optimizer_steps ps set_params) ->
  mpi_comm m = Some comm -> rank comm = 0%nat ->
  optimize flag {| self := m; sent := out; inbox := inb |} =
    Returned tt
      {| self := set_IN_OPTIMIZATION false
                   (apply_each ps (set_IN_OPTIMIZATION true m));
         sent := out ++ write_through_log ps ++ [Signal (-1)];
         inbox := inb |}.
Proof.
  intros Hcomm Hflag Hoptimizer Hc Hr.
  assert (Hall : forall ps m, mpi_comm (apply_each ps m) = mpi_comm m).
  { clear -Hcomm. intros ps. unfold apply_each.
    induction ps as [|p ps IH]; intros m; [done|].
    cbn [foldl]. by rewrite IH, Hcomm. }
  rewrite optimize_unfold. cbn [self sent inbox].
  unfold mbind at 1, Proc_bind at 1, get_self at 1.
  cbn [self set_IN_OPTIMIZATION mpi_comm]. rewrite Hc, Hr. cbn [Nat.eqb].
  unfold mbind at 1, Proc_bind at 1.
  rewrite Hoptimizer, (root_sets_each comm) by done.
  unfold mbind at 1, Proc_bind at 1, get_self at 1. cbn [self].
  rewrite Hall. cbn [set_IN_OPTIMIZATION mpi_comm]. rewrite Hc.
  unfold Bcast_int32, Bcast. unfold mbind, Proc_bind, mret, Proc_ret.
  rewrite Hr. cbn [Nat.eqb self sent inbox]. by rewrite <- app_assoc.
Qed.

(** A follower going through the broadcasts of an optimization. *)
Lemma follower_loop_replays comm :
  (forall p m, mpi_comm (SparseGP_set_params_transformed p m) = mpi_comm m) ->
  (0 < rank comm)%nat ->
  forall ps fuel x flag m out rest,
    mpi_comm m = Some comm ->
    length ps <= fuel ->
    Forall (fun p => length p = length x) ps ->
    wait_loop fuel x flag
      {| self := m; sent := out;
         inbox := write_through_log ps ++ Signal (-1) :: rest |} =
    Returned tt {| self := apply_each ps m; sent := out; inbox := rest |}.
Proof.
  intros Hcomm Hr ps.
  induction ps as [|p ps IH]; intros fuel x flag m out rest Hc Hfuel Hlen.
  - cbn [write_through_log flat_map app].
    by rewrite (follower_receives_flag m comm) by done.
  - destruct fuel as [|fuel]; [simpl in Hfuel; lia|].
    apply Forall_cons in Hlen as [Hp Hps].
    cbn [write_through_log flat_map app].
    rewrite (follower_receives_flag m comm) by done. cbv zeta.
    cbn [Z.eqb Pos.eqb]. unfold mbind, Proc_bind.
    rewrite (set_params_on_follower m comm) by done.
    fold (write_through_log ps).
    rewrite (IH fuel p 1%Z); [done | by rewrite Hcomm | simpl in Hfuel; lia |].
    eapply Forall_impl; [exact Hps|]. intros q Hq; cbv beta in *. congruence.
Qed.

(** X17: a follower fed the broadcasts of such an optimization, vectors
    of the length of its own parameter vector, applies each of them in
    order, sends nothing, and returns from [optimize] at the signal -1
    with the session flag cleared and the rest of its inbox unread. *)
Theorem follower_replays_session comm ps m flag out rest :
  (forall p m, mpi_comm (SparseGP_set_params_transformed p m) = mpi_comm m) ->
  mpi_comm m = Some comm -> (0 < rank comm)%nat ->
  Forall (fun p => length p
                   = length (SparseGP_get_params_transformed
                               (set_IN_OPTIMIZATION true m))) ps ->
  optimize flag
    {| self := m; sent := out;
       inbox := write_through_log ps ++ Signal (-1) :: rest |} =
    Returned tt
      {| self := set_IN_OPTIMIZATION false
                   (apply_each ps (set_IN_OPTIMIZATION true m));
         sent := out; inbox := rest |}.
Proof.
  intros Hcomm Hc Hr Hlen.
  rewrite optimize_unfold. cbn [self sent inbox].
  unfold mbind at 1, Proc_bind at 1, get_self at 1.
  cbn [self set_IN_OPTIMIZATION mpi_comm]. rewrite Hc.
  destruct (Nat.eqb_spec (rank comm) 0%nat) as [E|_]; [lia|].
  destruct (Nat.ltb_spec 0%nat (rank comm)) as [_|E]; [|lia].
  unfold mbind, Proc_bind, get_self, get_inbox. cbn [self sent inbox].
  rewrite (follower_loop_replays comm Hcomm Hr ps); [done | done | | done].
  rewrite length_app. unfold write_through_log.
  clear. induction ps as [|p ps IH]; simpl in *; lia.
Qed.

End SessionScripts.

(** ** More on the pickled state *)

Section SnapshotEdges.

Context {gpy : Collaborators}.

(** X18: with a communicator, a base state that lacks one of the three
    partition entries stops the snapshot with [KeyError] for the first
    one missing, in the order [Y_local], [X_local], [Y_range]. *)
Theorem snapshot_missing_slice m comm :
  mpi_comm m = Some comm ->
  (SparseGP_getstate m !! "Y_local" = None ->
     __getstate__ m = Raise (KeyError "Y_local"))
  /\ (is_Some (SparseGP_getstate m !! "Y_local") ->
      SparseGP_getstate m !! "X_local" = None ->
      __getstate__ m = Raise (KeyError "X_local"))
  /\ (is_Some (SparseGP_getstate m !! "Y_local") ->
      is_Some (SparseGP_getstate m !! "X_local") ->
      SparseGP_getstate m !! "Y_range" = None ->
      __getstate__ m = Raise (KeyError "Y_range")).
Proof.
  intros Hc. unfold __getstate__, delitem. rewrite Hc.
  split_and!.
  - intros Hy. rewrite lookup_insert_ne by done. by rewrite Hy.
  - intros [yl Hy] Hx. rewrite lookup_insert_ne, Hy by done.
    cbn [mbind res_bind].
    rewrite lookup_delete_ne, lookup_insert_ne by done. by rewrite Hx.
  - intros [yl Hy] [xl Hx] Hr. rewrite lookup_insert_ne, Hy by done.
    cbn [mbind res_bind].
    rewrite lookup_delete_ne, lookup_insert_ne, Hx by done.
    cbn [mbind res_bind].
    rewrite 2!lookup_delete_ne, lookup_insert_ne by done. by rewrite Hr.
Qed.

(** X19: without a communicator the snapshot never fails and deletes
    nothing: a base state that still holds partition entries keeps
    them, and only [mpi_comm] is set to [None]. *)
Theorem snapshot_without_communicator m :
  mpi_comm m = None ->
  exists dc,
    __getstate__ m = Ok dc
    /\ dc !! "mpi_comm" = Some PyNone
    /\ (forall k : string, k <> "mpi_comm" ->
          dc !! k = SparseGP_getstate m !! k)
    /\ dom dc = {["mpi_comm"]} ∪ dom (SparseGP_getstate m).
Proof.
  intros Hc. exists (<["mpi_comm" := PyNone]> (SparseGP_getstate m)).
  unfold __getstate__. rewrite Hc. split_and!.
  - done.
  - apply lookup_insert_eq.
  - intros k Hk. by apply lookup_insert_ne.
  - apply dom_insert_L.
Qed.

End SnapshotEdges.

(** ** The further properties at concrete inputs *)

Lemma latent_width_mismatch_raises_witness :
  construct (gpy := Toy.collaborators)
    (Cases.args (Some (full (4, 3)%nat 0%float)) None None 2 false None)
    Toy.rnd
  = Raise ValueError.
Proof.
  apply (latent_width_mismatch_raises (gpy := Toy.collaborators)
           (Cases.args (Some (full (4, 3)%nat 0%float)) None None 2 false None)
           Toy.rnd (full (4, 3)%nat 0%float) eq_refl); cbn; lia.
Defined.

Lemma input_dim_one_accepts_any_width_witness :
  exists m,
    construct (gpy := Toy.collaborators)
      (Cases.args (Some (full (4, 3)%nat 0%float)) None None 1 false None)
      Toy.rnd = Ok m
    /\ shape (values (binary_prob (X m))) = (4, 3)%nat
    /\ length (pi (variational_prior m)) = 1%nat.
Proof.
  exact (input_dim_one_accepts_any_width (gpy := Toy.collaborators)
           (Cases.args (Some (full (4, 3)%nat 0%float)) None None 1 false None)
           Toy.rnd (full (4, 3)%nat 0%float) eq_refl eq_refl eq_refl eq_refl).
Defined.

Lemma inducing_width_mismatch_raises_witness :
  construct (gpy := Toy.collaborators)
    (Cases.args None (Some (full (2, 5)%nat 0%float)) None 2 false None)
    Toy.rnd
  = Raise AssertionError.
Proof.
  apply (inducing_width_mismatch_raises (gpy := Toy.collaborators)
           (Cases.args None (Some (full (2, 5)%nat 0%float)) None 2 false None)
           Toy.rnd (full (2, 5)%nat 0%float) (full (4, 2)%nat 0.5%float)
           eq_refl); [cbn; lia | reflexivity].
Defined.

Lemma default_inducing_inputs_witness :
  exists m,
    construct (gpy := Toy.collaborators)
      (Cases.args None None None 2 false None) Toy.rnd = Ok m
    /\ length (rows (Z m)) = 3%nat
    /\ shape (Z m) = (3, 2)%nat.
Proof.
  destruct (proj2 (default_inducing_inputs (gpy := Toy.collaborators)
                     (Cases.args None None None 2 false None) Toy.rnd
                     eq_refl (Permutation_sym (Permutation_rev _)))
              (full (4, 2)%nat 0.5%float) eq_refl)
    as (m & Hm & Hlen & Hsh & _).
  exists m. exact (conj Hm (conj Hlen Hsh)).
Defined.

Lemma group_flag_is_mirrored_witness :
  exists m,
    construct (gpy := Toy.collaborators)
      (Cases.args None None (Some Cases.linear) 4 true None) Toy.rnd = Ok m
    /\ kern_group_spike_prob (kern m) = true
    /\ ARD (kern m) = false.
Proof.
  eexists. split; [vm_compute; reflexivity|].
  pose proof (group_flag_is_mirrored (gpy := Toy.collaborators)
                (Cases.args None None (Some Cases.linear) 4 true None)
                Toy.rnd _ Cases.linear eq_refl eq_refl)
    as (_ & _ & HARD & _ & Hflag).
  exact (conj Hflag HARD).
Defined.

Lemma input_sensitivity_without_ARD_witness :
  exists m,
    construct (gpy := Toy.collaborators)
      (Cases.args None None (Some Cases.linear) 2 false None) Toy.rnd = Ok m
    /\ input_sensitivity (gpy := Toy.collaborators) m = [0.5; 0.5]%float.
Proof.
  eexists. split; [vm_compute; reflexivity|].
  exact (input_sensitivity_without_ARD (gpy := Toy.collaborators)
           (Cases.args None None (Some Cases.linear) 2 false None)
           Toy.rnd _ Cases.linear eq_refl eq_refl eq_refl).
Defined.

Lemma constructor_on_root_witness :
  exists s,
    __init__ (gpy := Toy.collaborators)
      (Cases.args None None None 2 false (Some Toy.root)) Toy.rnd []
    = Ok (Returned tt s)
    /\ sent s = [Params [0.25; 0.75]%float]
    /\ Y_range (self s) = Some (0, 1)%nat.
Proof.
  eexists. split.
  - eapply (constructor_on_root (gpy := Toy.collaborators)
              (Cases.args None None None 2 false (Some Toy.root)) Toy.rnd
              _ Toy.root [] 0 1 [1; 1; 1]%nat); reflexivity.
  - split; reflexivity.
Defined.


Lemma missing_statistic_raises_witness :
  let s := Toy.running (Toy.model (OtherInference "VarDTC") None false) [] in
  parameters_changed (gpy := Cases.forgetful) s
  = Raised (KeyError "dL_dpsi1")
      {| self := Toy.with_base_state
                   (delete "dL_dpsi2" (delete "dL_dpsi1" Toy.statistics))
                   (-12 - 1.5)%float [0.25; 0.75]%float (self s);
         sent := []; inbox := [] |}.
Proof.
  cbv zeta.
  exact (proj1 (proj2 (missing_statistic_raises (gpy := Cases.forgetful)
                         (Toy.running
                            (Toy.model (OtherInference "VarDTC") None false) [])
                         eq_refl))
           (Toy.scalar 1) eq_refl eq_refl).
Defined.

Lemma cycle_frame_witness :
  let s := Toy.running (Toy.model (OtherInference "VarDTC") None false) [] in
  let s' := final (parameters_changed (gpy := Toy.collaborators) s) in
  sent s' = [] /\ kern (self s') = kern (self s).
Proof.
  cbv zeta.
  pose proof (cycle_frame (gpy := Toy.collaborators)
                (Toy.running (Toy.model (OtherInference "VarDTC") None false) [])
                eq_refl) as (Hsent & _ & _ & _ & _ & Hkern & _).
  exact (conj Hsent Hkern).
Defined.

Lemma follower_applies_only_what_it_receives_witness :
  let m := Toy.model (VarDTC_minibatch (Some Toy.follower))
             (Some Toy.follower) false in
  sent (final (_set_params_transformed (gpy := Toy.collaborators)
                 [0.25; 0.75]%float
                 {| self := m; sent := []; inbox := [Params [1; 2]%float] |}))
  = [].
Proof.
  cbv zeta.
  refine (proj1 (follower_applies_only_what_it_receives
                   (gpy := Toy.collaborators)
                   (Toy.model (VarDTC_minibatch (Some Toy.follower))
                      (Some Toy.follower) false)
                   Toy.follower [0.25; 0.75]%float [] [Params [1; 2]%float]
                   eq_refl _)).
  cbn; lia.
Defined.

Lemma optimize_returns_with_flag_cleared_witness :
  exists s',
    optimize (gpy := Toy.collaborators) 0
      (Toy.running (Toy.model (VarDTC_minibatch None) None false) [])
    = Returned tt s'
    /\ __IN_OPTIMIZATION__ (self s') = false.
Proof.
  eexists. split; [vm_compute; reflexivity|].
  exact (optimize_returns_with_flag_cleared (gpy := Toy.collaborators) 0
           (Toy.running (Toy.model (VarDTC_minibatch None) None false) [])
           _ eq_refl).
Defined.

Lemma root_optimize_witness :
  sent (final (optimize (gpy := Toy.collaborators) 0
                 {| self := Toy.model (VarDTC_minibatch (Some Toy.root))
                              (Some Toy.root) false;
                    sent := []; inbox := [] |}))
  = [Signal 1; Params [0.5; 0.5]%float;
     Signal 1; Params [1; 2]%float; Signal (-1)].
Proof.
  rewrite (proj1 (root_optimize (gpy := Toy.collaborators)
                    (Toy.model (VarDTC_minibatch (Some Toy.root))
                       (Some Toy.root) false)
                    Toy.root 0 [] [] eq_refl eq_refl)
             _ Toy.root eq_refl eq_refl eq_refl).
  reflexivity.
Defined.

Lemma root_session_log_witness :
  sent (final (optimize (gpy := Toy.collaborators) 0
                 {| self := Toy.model (VarDTC_minibatch (Some Toy.root))
                              (Some Toy.root) false;
                    sent := []; inbox := [] |}))
  = write_through_log Cases.steps ++ [Signal (-1)].
Proof.
  rewrite (root_session_log (gpy := Toy.collaborators) Toy.root Cases.steps
             (Toy.model (VarDTC_minibatch (Some Toy.root))
                (Some Toy.root) false) 0 [] []
             (fun _ _ => eq_refl) (fun _ _ => eq_refl) (fun _ => eq_refl)
             eq_refl eq_refl).
  reflexivity.
Defined.

Lemma follower_replays_session_witness :
  param_array
    (self (final (optimize (gpy := Toy.collaborators) 0
                    {| self := Toy.model (VarDTC_minibatch (Some Toy.follower))
                                 (Some Toy.follower) false;
                       sent := [];
                       inbox := write_through_log Cases.steps
                                ++ Signal (-1) :: [] |})))
  = [1; 2]%float.
Proof.
  rewrite (follower_replays_session (gpy := Toy.collaborators) Toy.follower
             Cases.steps
             (Toy.model (VarDTC_minibatch (Some Toy.follower))
                (Some Toy.follower) false) 0 [] []
             (fun _ _ => eq_refl) eq_refl ltac:(cbn; lia)
             ltac:(by repeat constructor)).
  reflexivity.
Defined.

Lemma snapshot_missing_slice_witness :
  __getstate__ (gpy := Toy.collaborators)
    (Toy.model (VarDTC_minibatch (Some Toy.follower)) (Some Toy.follower) false)
  = Raise (KeyError "Y_local").
Proof.
  exact (proj1 (snapshot_missing_slice (gpy := Toy.collaborators)
                  (Toy.model (VarDTC_minibatch (Some Toy.follower))
                     (Some Toy.follower) false)
                  Toy.follower eq_refl) eq_refl).
Defined.

Lemma snapshot_without_communicator_witness :
  exists dc,
    __getstate__ (gpy := Toy.collaborators)
      (Toy.model (VarDTC_minibatch None) None false) = Ok dc
    /\ dc !! "mpi_comm" = Some PyNone.
Proof.
  destruct (snapshot_without_communicator (gpy := Toy.collaborators)
              (Toy.model (VarDTC_minibatch None) None false) eq_refl)
    as (dc & Hdc & Hcomm & _).
  exists dc. exact (conj Hdc Hcomm).
Defined.

Lemma default_construction_is_dispatched_witness :
  exists m,
    construct (gpy := Toy.collaborators)
      (default_args (Toy.observations 50 3) 2) Toy.rnd = Ok m
    /\ inference_method m = VarDTC_minibatch None.
Proof.
  eexists. split; [vm_compute; reflexivity|].
  exact (proj1 (default_construction_is_dispatched (gpy := Toy.collaborators)
                  (default_args (Toy.observations 50 3) 2) Toy.rnd _ [] []
                  eq_refl eq_refl)).
Defined.

Lemma optimize_on_follower_witness :
  let m := Toy.model (VarDTC_minibatch (Some Toy.follower))
             (Some Toy.follower) false in
  optimize (gpy := Toy.collaborators) 0
    {| self := m; sent := []; inbox := [Signal (-1)] |}
  = (wait_loop (gpy := Toy.collaborators) 9 [0.25; 0.75]%float 0;;
     modify_self (set_IN_OPTIMIZATION false))
      {| self := set_IN_OPTIMIZATION true m; sent := [];
         inbox := [Signal (-1)] |}.
Proof.
  cbv zeta.
  apply (optimize_on_follower (gpy := Toy.collaborators) Toy.follower
           (Toy.model (VarDTC_minibatch (Some Toy.follower))
              (Some Toy.follower) false) 0 [] [Signal (-1)] 9
           (fun _ _ => eq_refl) eq_refl); cbn; lia.
Defined.
